(** * DyNeuGraph: the estimator class of dyneusr/core.py

    A shallow embedding of the class [DyNeuGraph] and of the few library
    calls it makes (numpy, pandas, networkx), followed by the properties
    of its methods.  Python objects that the class mutates in place (the
    networkx graphs) live in a store addressed by locations; everything
    else is a value.  A method is a computation that reads and writes the
    store and the instance, and either returns or raises. *)

From stdpp Require Import base option list gmap strings sorting.

Set Warnings "-register-all".

Local Open Scope Z_scope.
Local Open Scope string_scope.

(** ** Python values *)

(** The plain values that are stored, compared with [None] or passed on
    without being looked into. *)
Inductive pyval :=
| PyNone
| PyBool (b : bool)
| PyInt (z : Z)
| PyStr (s : string)
| PyList (l : list pyval)
| PyDict (d : list (string * pyval)).

(** Exceptions raised by the class or by the library calls it makes. *)
Inductive exn :=
| AttributeError
| KeyError
| TypeError
| ValueError
| UnboundLocalError
| NameError
| NetworkXError
| SchemaMismatch
| InvalidReference.

Inductive result (A : Type) :=
| Ok (a : A)
| Err (e : exn).
Arguments Ok {A} a.
Arguments Err {A} e.

Definition is_Ok {A} (r : result A) : Prop :=
  match r with Ok _ => True | Err _ => False end.

Definition is_none (v : pyval) : bool :=
  match v with PyNone => true | _ => false end.

(** [len(v)]: sized objects only. *)
Definition py_len (v : pyval) : result nat :=
  match v with
  | PyStr s => Ok (String.length s)
  | PyList l => Ok (length l)
  | PyDict d => Ok (length d)
  | PyNone | PyBool _ | PyInt _ => Err TypeError
  end.

Fixpoint chars (s : string) : list pyval :=
  match s with
  | EmptyString => []
  | String c s' => PyStr (String c EmptyString) :: chars s'
  end.

(** [iter(v)]: a list yields its items, a dict its keys, a string its
    characters; the other values are not iterable. *)
Definition py_iter (v : pyval) : result (list pyval) :=
  match v with
  | PyStr s => Ok (chars s)
  | PyList l => Ok l
  | PyDict d => Ok (PyStr <$> d.*1)
  | PyNone | PyBool _ | PyInt _ => Err TypeError
  end.

(** ** numpy *)

(** A two-dimensional integer array, row by row. *)
Definition matrix := list (list Z).

(** [np.arange(n)] *)
Definition np_arange (n : nat) : list Z := seqZ 0 (Z.of_nat n).

(** [np.unique] on a list of Python integers: the sorted distinct items.
    This is what numpy computes when the items fit an [int64] array;
    statements about the items are made under that bound. *)
Definition np_unique_int (l : list Z) : list Z :=
  merge_sort Z.le (remove_dups l).

Definition str_le (a b : string) : Prop := String.leb a b = true.

Global Instance str_le_dec a b : Decision (str_le a b).
Proof. unfold str_le. apply _. Defined.

(** A string as an item of a numpy string array: the array has a fixed
    width and pads with NUL characters, so an item read back has lost
    the NUL characters it ended in. *)
Fixpoint strip_nul (s : string) : string :=
  match s with
  | EmptyString => EmptyString
  | String c s' =>
      match strip_nul s' with
      | EmptyString =>
          if Ascii.eqb c Ascii.zero then EmptyString else String c EmptyString
      | t => String c t
      end
  end.

(** [np.unique] on a list of Python strings: the sorted distinct items
    of the string array made of the list. *)
Definition np_unique_str (l : list string) : list string :=
  merge_sort str_le (remove_dups (strip_nul <$> l)).

(** [row.nonzero()[0]]: the positions of the non-zero entries of a
    one-dimensional array, in increasing order. *)
Fixpoint nonzero_from (i : nat) (row : list Z) : list nat :=
  match row with
  | [] => []
  | x :: row' =>
      if decide (x = 0) then nonzero_from (S i) row'
      else i :: nonzero_from (S i) row'
  end.

Definition nonzero (row : list Z) : list nat := nonzero_from 0 row.

(** ** pandas *)

(** A data frame: its row labels and its columns. *)
Record DataFrame := {
  df_index : list pyval;
  df_columns : list (string * list pyval);
}.

Definition df_len (df : DataFrame) : nat := length (df_index df).

(** [df.reset_index()]: the old row labels become a column (named
    "index", or "level_0" when "index" is taken; inserting a name that
    exists is a [ValueError]) and the rows are numbered anew from 0. *)
Definition reset_index (df : DataFrame) : result DataFrame :=
  let name :=
    if decide ("index" ∈ (df_columns df).*1) then "level_0" else "index" in
  if decide (name ∈ (df_columns df).*1) then Err ValueError
  else Ok {| df_index := PyInt <$> np_arange (df_len df);
             df_columns := (name, df_index df) :: df_columns df |}.

(** The integer labels of a frame's index ([None] when a label is not an
    integer), and [np.sort] of them. *)
Definition int_labels (l : list pyval) : option (list Z) :=
  mapM (λ v, match v with PyInt z => Some z | _ => None end) l.

Definition np_sort_index (df : DataFrame) : result (list Z) :=
  match int_labels (df_index df) with
  | Some l => Ok (merge_sort Z.le l)
  | None => Err TypeError
  end.

(** ** networkx *)

(** Node keys: KeplerMapper names its nodes by strings, a graph built
    from a matrix numbers them. *)
Inductive node :=
| NInt (z : Z)
| NStr (s : string).

Global Instance node_eq_dec : EqDecision node.
Proof. solve_decision. Defined.

Definition node_val (n : node) : pyval :=
  match n with NInt z => PyInt z | NStr s => PyStr s end.

(** An undirected graph without parallel edges: [G.graph], [G.nodes] in
    insertion order with their attribute dicts, the edges with theirs,
    and whether the object is a [MultiGraph]. *)
Record nxgraph := {
  graph : gmap string pyval;
  nodes : list (node * gmap string pyval);
  edges : list (node * node * gmap string pyval);
  multigraph : bool;
}.

Definition empty_graph : nxgraph :=
  {| graph := ∅; nodes := []; edges := []; multigraph := false |}.

(** [G.nodes[n][name] = v], skipped when [n] is not a node of [G]
    (the [KeyError] that [set_node_attributes] swallows). *)
Definition set_node_attr (name : string) (nds : list (node * gmap string pyval))
    (item : node * pyval) : list (node * gmap string pyval) :=
  (λ na : node * gmap string pyval,
     if decide (na.1 = item.1) then (na.1, <[name := item.2]> na.2) else na)
  <$> nds.

(** [nx.set_node_attributes(G, values, name)] for a dict [values], given
    by its items. *)
Definition set_node_attributes (g : nxgraph) (values : list (node * pyval))
    (name : string) : nxgraph :=
  {| graph := graph g;
     nodes := foldl (set_node_attr name) (nodes g) values;
     edges := edges g;
     multigraph := multigraph g |}.

Definition same_edge (u v x y : node) : bool :=
  bool_decide ((u = x ∧ v = y) ∨ (u = y ∧ v = x)).

Definition set_edge_attr (name : string)
    (es : list (node * node * gmap string pyval))
    (item : node * node * pyval) : list (node * node * gmap string pyval) :=
  (λ e : node * node * gmap string pyval,
     if same_edge e.1.1 e.1.2 item.1.1 item.1.2
     then (e.1, <[name := item.2]> e.2) else e)
  <$> es.

(** [nx.set_edge_attributes(G, values, name)] for a dict keyed by pairs
    [(u, v)]; a [MultiGraph] wants triples and fails to unpack a pair. *)
Definition set_edge_attributes (g : nxgraph)
    (values : list (node * node * pyval)) (name : string) : result nxgraph :=
  if multigraph g then
    match values with [] => Ok g | _ :: _ => Err ValueError end
  else
    Ok {| graph := graph g;
          nodes := nodes g;
          edges := foldl (set_edge_attr name) (edges g) values;
          multigraph := false |}.

(** The non-zero entries [(u, v)] with [u <= v] of row [u], as weighted
    edges. *)
Definition row_edges (u : nat) (row : list Z)
    : list (node * node * gmap string pyval) :=
  omap (λ v : nat,
          w ← row !! v;
          if decide (u ≤ v)%nat
          then Some (NInt (Z.of_nat u), NInt (Z.of_nat v), {[ "weight" := PyInt w ]})
          else None)
       (nonzero row).

(** [nx.MultiGraph(TCM)]: the rows of a square array number the nodes,
    every non-zero entry is an edge. *)
Definition MultiGraph (tcm : matrix) : result nxgraph :=
  if forallb (λ row, bool_decide (length row = length tcm)) tcm then
    Ok {| graph := ∅;
          nodes := (λ z, (NInt z, ∅)) <$> np_arange (length tcm);
          edges := mjoin (imap row_edges tcm);
          multigraph := true |}
  else Err NetworkXError.

(** ** Serialized graphs *)

(** The ["nodes"] entry of a node/link dict: a dict from node names to
    member indices (KeplerMapper), or a list of node dicts
    ([nx.node_link_data]). *)
Inductive nodes_t :=
| NodesDict (d : list (string * list Z))
| NodesList (l : list (gmap string pyval)).

(** The ["links"] entry likewise. *)
Inductive links_t :=
| LinksDict (d : list (string * list string))
| LinksList (l : list (gmap string pyval)).

(** A dict with string keys: the two entries above when present, and
    the entries under any other key. *)
Record node_link := {
  nl_nodes : option nodes_t;
  nl_links : option links_t;
  nl_other : gmap string pyval;
}.

Definition has_key (k : string) (d : node_link) : bool :=
  if decide (k = "nodes") then bool_decide (is_Some (nl_nodes d))
  else if decide (k = "links") then bool_decide (is_Some (nl_links d))
  else bool_decide (is_Some (nl_other d !! k)).

(** [{}] *)
Definition empty_dict : node_link :=
  {| nl_nodes := None; nl_links := None; nl_other := ∅ |}.

(** [dict(nodes={}, links={})] *)
Definition skeleton : node_link :=
  {| nl_nodes := Some (NodesDict []);
     nl_links := Some (LinksDict []);
     nl_other := ∅ |}.

(** [dict(a, **b)]: the entries of [b] over those of [a]. *)
Definition dict_merge (a b : node_link) : node_link :=
  {| nl_nodes := nl_nodes b ∪ nl_nodes a;
     nl_links := nl_links b ∪ nl_links a;
     nl_other := nl_other b ∪ nl_other a |}.

(** [G['nodes']] *)
Definition getitem_nodes (d : node_link) : result nodes_t :=
  match nl_nodes d with Some v => Ok v | None => Err KeyError end.

(** [nx.node_link_data(G)] *)
Definition node_link_data (g : nxgraph) : node_link :=
  {| nl_nodes :=
       Some (NodesList ((λ na : node * gmap string pyval,
                           <["id" := node_val na.1]> na.2) <$> nodes g));
     nl_links :=
       Some (LinksList ((λ e : node * node * gmap string pyval,
                           let d := <["target" := node_val e.1.2]>
                                      (<["source" := node_val e.1.1]> e.2) in
                           if multigraph g then <["key" := PyInt 0]> d else d)
                        <$> edges g));
     nl_other :=
       <["directed" := PyBool false]>
         (<["multigraph" := PyBool (multigraph g)]>
            {[ "graph" := PyDict (map_to_list (graph g)) ]}) |}.

(** [nx.relabel_nodes(G, mapping)] with its default [copy=True]: a new
    graph; [G] itself is left alone. *)
Definition relabel_nodes (g : nxgraph) (mapping : list (node * node)) : nxgraph :=
  let f (n : node) : node := default n ((λ r : nat * (node * node), r.2.2) <$>
                list_find (λ p : node * node, p.1 = n) mapping) in
  {| graph := graph g;
     nodes := (λ na : node * gmap string pyval, (f na.1, na.2)) <$> nodes g;
     edges := (λ e : node * node * gmap string pyval,
                 (f e.1.1, f e.1.2, e.2)) <$> edges g;
     multigraph := multigraph g |}.

(** ** Arguments of the methods *)

Abbreviation loc := positive.

(** The [G] of [fit]: nothing, a networkx graph object, or a serialized
    node/link dict. *)
Inductive graph_arg :=
| GNone
| GGraph (l : loc)
| GDict (d : node_link).

(** The [y] of [fit]: a [pd.DataFrame] or any plain value ([None]
    included). *)
Inductive label :=
| LFrame (df : DataFrame)
| LVal (v : pyval).

(** The [G_data] of [fit] and the attribute [G_data_]: a flag, or a
    graph over the time indices. *)
Inductive gdata :=
| GDBool (b : bool)
| GDGraph (l : loc).

(** [node_data] and [edge_data]: per attribute name, the values keyed by
    node or by edge. *)
Definition node_attrs := list (string * list (node * pyval)).
Definition edge_attrs := list (string * list (node * node * pyval)).

(** The value of an annotation keyword: a numpy array of one or more
    dimensions (its items), a zero-dimensional array, or a plain value. *)
Inductive values_arg :=
| ValArray (l : list pyval)
| ValArray0 (v : pyval)
| ValObj (v : pyval).

(** Anything that a keyword of the constructor or of [cache] can carry. *)
Inductive pyarg :=
| ArgVal (v : pyval)
| ArgGraph (g : graph_arg)
| ArgLabel (y : label)
| ArgGData (d : gdata)
| ArgNodeData (nd : option node_attrs)
| ArgEdgeData (ed : option edge_attrs).

(** [v is None] *)
Definition arg_is_none (v : pyarg) : bool :=
  match v with
  | ArgVal PyNone | ArgGraph GNone | ArgLabel (LVal PyNone)
  | ArgNodeData None | ArgEdgeData None => true
  | _ => false
  end.

Record fit_args := {
  a_G : graph_arg;
  a_X : pyval;
  a_y : label;
  a_node_data : option node_attrs;
  a_edge_data : option edge_attrs;
  a_G_data : gdata;
  a_kwargs : list (string * pyval);
}.

(** The defaults of [fit]'s signature. *)
Definition fit_defaults : fit_args :=
  {| a_G := GNone; a_X := PyNone; a_y := LVal PyNone;
     a_node_data := Some []; a_edge_data := Some [];
     a_G_data := GDBool false; a_kwargs := [] |}.

(** One keyword of [**params]; [P_kw] carries a name that is not a
    parameter of [fit]. *)
Inductive param :=
| P_G (g : graph_arg)
| P_X (v : pyval)
| P_y (y : label)
| P_node_data (nd : option node_attrs)
| P_edge_data (ed : option edge_attrs)
| P_G_data (d : gdata)
| P_kw (k : string) (v : pyval).

Definition param_item (p : param) : string * pyarg :=
  match p with
  | P_G g => ("G", ArgGraph g)
  | P_X v => ("X", ArgVal v)
  | P_y y => ("y", ArgLabel y)
  | P_node_data nd => ("node_data", ArgNodeData nd)
  | P_edge_data ed => ("edge_data", ArgEdgeData ed)
  | P_G_data d => ("G_data", ArgGData d)
  | P_kw k v => (k, ArgVal v)
  end.

Definition bind_param (a : fit_args) (p : param) : fit_args :=
  match p with
  | P_G g =>
      {| a_G := g; a_X := a_X a; a_y := a_y a; a_node_data := a_node_data a;
         a_edge_data := a_edge_data a; a_G_data := a_G_data a;
         a_kwargs := a_kwargs a |}
  | P_X v =>
      {| a_G := a_G a; a_X := v; a_y := a_y a; a_node_data := a_node_data a;
         a_edge_data := a_edge_data a; a_G_data := a_G_data a;
         a_kwargs := a_kwargs a |}
  | P_y y =>
      {| a_G := a_G a; a_X := a_X a; a_y := y; a_node_data := a_node_data a;
         a_edge_data := a_edge_data a; a_G_data := a_G_data a;
         a_kwargs := a_kwargs a |}
  | P_node_data nd =>
      {| a_G := a_G a; a_X := a_X a; a_y := a_y a; a_node_data := nd;
         a_edge_data := a_edge_data a; a_G_data := a_G_data a;
         a_kwargs := a_kwargs a |}
  | P_edge_data ed =>
      {| a_G := a_G a; a_X := a_X a; a_y := a_y a; a_node_data := a_node_data a;
         a_edge_data := ed; a_G_data := a_G_data a;
         a_kwargs := a_kwargs a |}
  | P_G_data d =>
      {| a_G := a_G a; a_X := a_X a; a_y := a_y a; a_node_data := a_node_data a;
         a_edge_data := a_edge_data a; a_G_data := d;
         a_kwargs := a_kwargs a |}
  | P_kw k v =>
      {| a_G := a_G a; a_X := a_X a; a_y := a_y a; a_node_data := a_node_data a;
         a_edge_data := a_edge_data a; a_G_data := a_G_data a;
         a_kwargs := a_kwargs a ++ [(k, v)] |}
  end.

(** ** The instance *)

(** The attributes of a [DyNeuGraph]; [None] is an attribute that has not
    been assigned.  [cache_] is assigned first thing by the constructor. *)
Record DyNeuGraph := {
  cache_ : gmap string pyarg;
  G_input_ : option graph_arg;
  X_ : option pyval;
  y_ : option label;
  G_ : option loc;
  G_data_ : option gdata;
  node_ids_ : option (list string);
  data_ids_ : option (list Z);
  adj_ : option matrix;
  map_ : option matrix;
  tcm_ : option matrix;
  mixtures_ : option (list (list nat));
  G : option loc;
  A : option matrix;
  M : option matrix;
  TCM : option matrix;
  G_inverse_ : option pyval;
  mixtures_img_ : option pyval;
  annotations_ : option pyval;
  node_link_data_ : option node_link;
  HTTP : option pyval;
}.

(** A new object that has only its [cache_]. *)
Definition blank (c : gmap string pyarg) : DyNeuGraph :=
  {| cache_ := c; G_input_ := None; X_ := None; y_ := None; G_ := None;
     G_data_ := None; node_ids_ := None; data_ids_ := None; adj_ := None;
     map_ := None; tcm_ := None; mixtures_ := None; G := None; A := None;
     M := None; TCM := None; G_inverse_ := None; mixtures_img_ := None;
     annotations_ := None; node_link_data_ := None; HTTP := None |}.

(** The graph objects, and the instance the method runs on. *)
Record world := {
  store : gmap loc nxgraph;
  self : DyNeuGraph;
}.

(** ** Computations that may raise *)

Definition Py (T : Type) : Type := world → result T * world.

Global Instance result_ret : MRet result := λ _ x, Ok x.
Global Instance result_bind : MBind result := λ _ _ f r,
  match r with Ok x => f x | Err e => Err e end.

Global Instance Py_ret : MRet Py := λ _ x w, (Ok x, w).
Global Instance Py_bind : MBind Py := λ _ _ f m w,
  match m w with
  | (Ok x, w') => f x w'
  | (Err e, w') => (Err e, w')
  end.

Definition raise {T} (e : exn) : Py T := λ w, (Err e, w).

Definition lift {T} (r : result T) : Py T := λ w, (r, w).

(** [self.name] *)
Definition getattr {T} (field : DyNeuGraph → option T) : Py T := λ w,
  match field (self w) with
  | Some v => (Ok v, w)
  | None => (Err AttributeError, w)
  end.

Definition modify_self (f : DyNeuGraph → DyNeuGraph) : Py unit := λ w,
  (Ok (), {| store := store w; self := f (self w) |}).

(** A new object. *)
Definition alloc (g : nxgraph) : Py loc := λ w,
  let l := fresh (dom (store w)) in
  (Ok l, {| store := <[l := g]> (store w); self := self w |}).

Definition deref (l : loc) : Py nxgraph := λ w,
  match store w !! l with
  | Some g => (Ok g, w)
  | None => (Err InvalidReference, w)
  end.

(** A change of the object at [l], in place. *)
Definition mutate (l : loc) (f : nxgraph → nxgraph) : Py unit := λ w,
  match store w !! l with
  | Some g => (Ok (), {| store := <[l := f g]> (store w); self := self w |})
  | None => (Err InvalidReference, w)
  end.

(** A loop body run over the items in turn, stopping at the first
    exception. *)
Fixpoint for_each {T} (body : T → Py unit) (items : list T) : Py unit :=
  match items with
  | [] => mret ()
  | x :: items' => body x ≫= λ _, for_each body items'
  end.

(** ** The modules [tools] and [visuals]

    core.py imports both from the package; their sources are not part of
    the class.  The class is embedded over their interfaces: functions of
    their arguments that return or raise, a returned graph being a new
    object. *)

Class Tools := {
  (** [tools.process_graph(G, meta=y, **kwargs)] *)
  process_graph : node_link → label → list (string * pyval) → result nxgraph;
  (** [tools.extract_matrices(G, index=data_ids)], [index] optional *)
  extract_matrices : nxgraph → option (list Z) → result (matrix * matrix * matrix);
}.

Class Visuals := {
  (** [visuals.annotate(G, **kwargs)] *)
  visuals_annotate : nxgraph → list (string * pyval) → result (nxgraph * pyval);
  (** [visuals.plot_temporal_matrix(TCM, y=None, show=True, **kwargs)] *)
  plot_temporal_matrix : matrix → list (string * pyval) → result pyval;
  (** [visuals.visualize_force(data, path_html=path_html, **kwargs)] *)
  visualize_force : node_link → string → list (string * pyval) → result pyval;
}.

(** ** The methods of [DyNeuGraph] *)

(** The value [cache] returns: a stored value ([None] included) or the
    dict itself. *)
Inductive cache_result :=
| Value (v : pyarg)
| CacheDict (d : gmap string pyarg).

(** [self.cache_.get(k)] *)
Definition cache_get (c : gmap string pyarg) (k : string) : pyarg :=
  default (ArgVal PyNone) (c !! k).

(** The [for] loop of [cache]. *)
Fixpoint cache_scan (c : gmap string pyarg) (args : list string) : pyarg :=
  match args with
  | [] => ArgVal PyNone
  | k :: args' =>
      if arg_is_none (cache_get c k) then cache_scan c args'
      else cache_get c k
  end.

(** [d.update(kwargs)] *)
Definition dict_update {V} (d : gmap string V) (kwargs : list (string * V))
    : gmap string V :=
  foldl (λ m kv, <[kv.1 := kv.2]> m) d kwargs.

Definition set_cache_ (c : gmap string pyarg) (s : DyNeuGraph) : DyNeuGraph :=
  {| cache_ := c; G_input_ := G_input_ s; X_ := X_ s; y_ := y_ s; G_ := G_ s;
     G_data_ := G_data_ s; node_ids_ := node_ids_ s; data_ids_ := data_ids_ s;
     adj_ := adj_ s; map_ := map_ s; tcm_ := tcm_ s; mixtures_ := mixtures_ s;
     G := G s; A := A s; M := M s; TCM := TCM s; G_inverse_ := G_inverse_ s;
     mixtures_img_ := mixtures_img_ s; annotations_ := annotations_ s;
     node_link_data_ := node_link_data_ s; HTTP := HTTP s |}.

(** [cache(self, *args, **kwargs)] *)
Definition cache (args : list string) (kwargs : list (string * pyarg))
    : Py cache_result := λ w,
  match args with
  | _ :: _ => (Ok (Value (cache_scan (cache_ (self w)) args)), w)
  | [] =>
      let c := dict_update (cache_ (self w)) kwargs in
      (Ok (CacheDict c), {| store := store w; self := set_cache_ c (self w) |})
  end.

(** [self.G_input_ = G; self.X_ = X; self.y_ = y] *)
Definition save_inputs (g : graph_arg) (x : pyval) (y : label)
    (s : DyNeuGraph) : DyNeuGraph :=
  {| cache_ := cache_ s; G_input_ := Some g; X_ := Some x; y_ := Some y;
     G_ := G_ s; G_data_ := G_data_ s; node_ids_ := node_ids_ s;
     data_ids_ := data_ids_ s; adj_ := adj_ s; map_ := map_ s; tcm_ := tcm_ s;
     mixtures_ := mixtures_ s; G := G s; A := A s; M := M s; TCM := TCM s;
     G_inverse_ := G_inverse_ s; mixtures_img_ := mixtures_img_ s;
     annotations_ := annotations_ s; node_link_data_ := node_link_data_ s;
     HTTP := HTTP s |}.

(** The "store variables" and "some new conventions" blocks of [fit]. *)
Definition store_fit (lG : loc) (gd : gdata) (node_ids : list string)
    (data_ids : list Z) (a m tcm : matrix) (mixtures : list (list nat))
    (s : DyNeuGraph) : DyNeuGraph :=
  {| cache_ := cache_ s; G_input_ := G_input_ s; X_ := X_ s; y_ := y_ s;
     G_ := Some lG; G_data_ := Some gd; node_ids_ := Some node_ids;
     data_ids_ := Some data_ids; adj_ := Some a; map_ := Some m;
     tcm_ := Some tcm; mixtures_ := Some mixtures;
     G := Some lG; A := Some a; M := Some m; TCM := Some tcm;
     G_inverse_ := G_inverse_ s; mixtures_img_ := mixtures_img_ s;
     annotations_ := annotations_ s; node_link_data_ := node_link_data_ s;
     HTTP := HTTP s |}.

(** The "check graph" and "copy graph, override defaults" steps of
    [fit]: the canonical node/link dict. *)
Definition canonical (g : graph_arg) : Py node_link :=
  match g with
  | GGraph l =>
      g0 ← deref l;
      l' ← alloc g0;
      g' ← deref l';
      mret (dict_merge skeleton (node_link_data g'))
  | GNone => mret (dict_merge skeleton empty_dict)
  | GDict d => mret (dict_merge skeleton d)
  end.

(** [node_ids] and the first [data_ids] of [fit]: [np.unique] over the
    entry under ["nodes"], then over the items of its values.  A list of
    node dicts cannot be ordered once it has two items, and has no
    [.items()]. *)
Definition graph_ids (d : node_link) : result (list string * list Z) :=
  nds ← getitem_nodes d;
  match nds with
  | NodesDict nd => Ok (np_unique_str nd.*1, np_unique_int (mjoin nd.*2))
  | NodesList l =>
      if decide (2 ≤ length l)%nat then Err TypeError else Err AttributeError
  end.

(** The [if y is not None] block of [fit]. *)
Definition label_ids (y : label) (data_ids : list Z) : result (list Z) :=
  match y with
  | LVal PyNone => Ok data_ids
  | LFrame df => df' ← reset_index df; np_sort_index df'
  | LVal v => n ← py_len v; Ok (np_arange n)
  end.

(** What iterating [y] yields: the column names of a frame, the items of
    a plain value. *)
Definition label_iter (y : label) : result (list pyval) :=
  match y with
  | LFrame df => Ok (PyStr <$> (df_columns df).*1)
  | LVal v => py_iter v
  end.

(** "mixture of connected TRs, for each TR" *)
Definition mixtures_of (tcm : matrix) : list (list nat) := nonzero <$> tcm.

(** The "create graph from TCM" block of [fit]. *)
Definition make_G_data (gd : gdata) (tcm : matrix) (data_ids : list Z)
    (y : label) : Py gdata :=
  match gd with
  | GDBool true =>
      g ← lift (MultiGraph tcm);
      l ← alloc g;
      let _ := relabel_nodes g (zip (nodes g).*1 (NInt <$> data_ids)) in
      ys ← lift (label_iter y);
      mutate l (λ g, set_node_attributes g (zip (NInt <$> data_ids) ys) "group");;
      mret (GDGraph l)
  | _ => mret gd
  end.

(** The "store variables" block of [transform]. *)
Definition store_transform (gd : gdata) (a m tcm : matrix)
    (mixtures : list (list nat)) (s : DyNeuGraph) : DyNeuGraph :=
  {| cache_ := cache_ s; G_input_ := G_input_ s; X_ := X_ s; y_ := y_ s;
     G_ := G_ s; G_data_ := Some gd; node_ids_ := node_ids_ s;
     data_ids_ := data_ids_ s; adj_ := Some a; map_ := Some m;
     tcm_ := Some tcm; mixtures_ := Some mixtures;
     G := G s; A := A s; M := M s; TCM := TCM s;
     G_inverse_ := G_inverse_ s; mixtures_img_ := mixtures_img_ s;
     annotations_ := annotations_ s; node_link_data_ := node_link_data_ s;
     HTTP := HTTP s |}.

(** [self.G_ = G_; self.annotations_ = annotations] *)
Definition store_annotate (lG : loc) (annotations : pyval)
    (s : DyNeuGraph) : DyNeuGraph :=
  {| cache_ := cache_ s; G_input_ := G_input_ s; X_ := X_ s; y_ := y_ s;
     G_ := Some lG; G_data_ := G_data_ s; node_ids_ := node_ids_ s;
     data_ids_ := data_ids_ s; adj_ := adj_ s; map_ := map_ s; tcm_ := tcm_ s;
     mixtures_ := mixtures_ s; G := G s; A := A s; M := M s; TCM := TCM s;
     G_inverse_ := G_inverse_ s; mixtures_img_ := mixtures_img_ s;
     annotations_ := Some annotations; node_link_data_ := node_link_data_ s;
     HTTP := HTTP s |}.

Definition set_mixtures_img_ (v : pyval) (s : DyNeuGraph) : DyNeuGraph :=
  {| cache_ := cache_ s; G_input_ := G_input_ s; X_ := X_ s; y_ := y_ s;
     G_ := G_ s; G_data_ := G_data_ s; node_ids_ := node_ids_ s;
     data_ids_ := data_ids_ s; adj_ := adj_ s; map_ := map_ s; tcm_ := tcm_ s;
     mixtures_ := mixtures_ s; G := G s; A := A s; M := M s; TCM := TCM s;
     G_inverse_ := G_inverse_ s; mixtures_img_ := Some v;
     annotations_ := annotations_ s; node_link_data_ := node_link_data_ s;
     HTTP := HTTP s |}.

Definition set_node_link_data_ (d : node_link) (s : DyNeuGraph) : DyNeuGraph :=
  {| cache_ := cache_ s; G_input_ := G_input_ s; X_ := X_ s; y_ := y_ s;
     G_ := G_ s; G_data_ := G_data_ s; node_ids_ := node_ids_ s;
     data_ids_ := data_ids_ s; adj_ := adj_ s; map_ := map_ s; tcm_ := tcm_ s;
     mixtures_ := mixtures_ s; G := G s; A := A s; M := M s; TCM := TCM s;
     G_inverse_ := G_inverse_ s; mixtures_img_ := mixtures_img_ s;
     annotations_ := annotations_ s; node_link_data_ := Some d;
     HTTP := HTTP s |}.

Definition set_HTTP (v : pyval) (s : DyNeuGraph) : DyNeuGraph :=
  {| cache_ := cache_ s; G_input_ := G_input_ s; X_ := X_ s; y_ := y_ s;
     G_ := G_ s; G_data_ := G_data_ s; node_ids_ := node_ids_ s;
     data_ids_ := data_ids_ s; adj_ := adj_ s; map_ := map_ s; tcm_ := tcm_ s;
     mixtures_ := mixtures_ s; G := G s; A := A s; M := M s; TCM := TCM s;
     G_inverse_ := G_inverse_ s; mixtures_img_ := mixtures_img_ s;
     annotations_ := annotations_ s; node_link_data_ := node_link_data_ s;
     HTTP := Some v |}.

(** Reading a local variable of a function body: one that no statement
    has assigned yet is unbound. *)
Definition read_local {T} (v : option T) : Py T :=
  match v with Some x => mret x | None => raise UnboundLocalError end.

(** [G.graph.update] with keywords *)
Definition graph_update (kwargs : list (string * pyval)) (g : nxgraph) : nxgraph :=
  {| graph := dict_update (graph g) kwargs;
     nodes := nodes g; edges := edges g; multigraph := multigraph g |}.

(** [sample(self, X, y=None)] *)
Definition sample (x : pyval) (y : label) : Py pyval :=
  let mixtures_img := PyNone in
  modify_self (set_mixtures_img_ mixtures_img);;
  getattr mixtures_img_.

(** The values of one keyword of [annotate_nodes], made a list: the
    items of an array or a list, the keys of a dict, and any other value
    once per node of [self.G_]. *)
Definition node_values (values : values_arg) : Py (list pyval) :=
  match values with
  | ValArray l => mret l
  | ValArray0 _ => raise TypeError
  | ValObj (PyDict d) => mret (PyStr <$> d.*1)
  | ValObj (PyList l) => mret l
  | ValObj v =>
      lG ← getattr G_;
      g ← deref lG;
      mret (replicate (length (nodes g)) v)
  end.

(** [annotate_nodes(self, **kwargs)] *)
Definition annotate_nodes (kwargs : list (string * values_arg)) : Py unit :=
  for_each (λ kv : string * values_arg,
              values ← node_values kv.2;
              lG ← getattr G_;
              g ← deref lG;
              let values := zip (nodes g).*1 values in
              mutate lG (λ g, set_node_attributes g values kv.1))
           kwargs.

(** The same for [annotate_members], where a value that is no container
    stands alone. *)
Definition member_values (values : values_arg) : Py (list pyval) :=
  match values with
  | ValArray l => mret l
  | ValArray0 _ => raise TypeError
  | ValObj (PyDict d) => mret (PyStr <$> d.*1)
  | ValObj (PyList l) => mret l
  | ValObj v => mret [v]
  end.

(** [annotate_members(self, **kwargs)]; a flag in [G_data_] cannot be
    iterated. *)
Definition annotate_members (kwargs : list (string * values_arg)) : Py unit :=
  for_each (λ kv : string * values_arg,
              values ← member_values kv.2;
              gd ← getattr G_data_;
              match gd with
              | GDBool _ => raise TypeError
              | GDGraph l =>
                  g ← deref l;
                  let values := zip (nodes g).*1 values in
                  mutate l (λ g, set_node_attributes g values kv.1)
              end)
           kwargs.

(** [annotate_graph(self, **kwargs)] *)
Definition annotate_graph (kwargs : list (string * pyval)) : Py unit :=
  lG ← getattr G_;
  mutate lG (graph_update kwargs).

Section methods.
Context `{!Tools, !Visuals}.

(** [fit(self, G=None, X=None, y=None, node_data=dict(),
    edge_data=dict(), G_data=False, **kwargs)] *)
Definition fit (a : fit_args) : Py unit :=
  (* save inputs *)
  modify_self (save_inputs (a_G a) (a_X a) (a_y a));;
  (* check graph; copy graph, override defaults *)
  d ← canonical (a_G a);
  (* states, microstates *)
  ids ← lift (graph_ids d);
  data_ids ← lift (label_ids (a_y a) ids.2);
  (* process graph *)
  g ← lift (process_graph d (a_y a) (a_kwargs a));
  lG ← alloc g;
  amt ← lift (extract_matrices g (Some data_ids));
  (* create graph from TCM *)
  gd ← make_G_data (a_G_data a) amt.2 data_ids (a_y a);
  (* annotate any additional node data here *)
  for_each (λ kv : string * list (node * pyval),
              mutate lG (λ g, set_node_attributes g kv.2 kv.1))
           (default [] (a_node_data a));;
  for_each (λ kv : string * list (node * node * pyval),
              g ← deref lG;
              g' ← lift (set_edge_attributes g kv.2 kv.1);
              mutate lG (λ _, g'))
           (default [] (a_edge_data a));;
  (* mixture of connected TRs, for each TR *)
  let mixtures := mixtures_of amt.2 in
  (* store variables *)
  modify_self (store_fit lG gd ids.1 data_ids amt.1.1 amt.1.2 amt.2 mixtures).

(** [__init__(self, **params)] on a new object. *)
Definition __init__ (params : list param) : Py unit := λ w,
  fit (foldl bind_param fit_defaults params)
      {| store := store w;
         self := blank (list_to_map (param_item <$> params)) |}.

(** [inverse_transform(self, G, y=None)] *)
Definition inverse_transform (g : graph_arg) (y : label) : Py pyval :=
  getattr G_inverse_.

(** [fit_transform(self, G, y=None)] *)
Definition fit_transform (g : graph_arg) (y : label) : Py matrix :=
  fit {| a_G := g; a_X := a_X fit_defaults; a_y := y;
         a_node_data := a_node_data fit_defaults;
         a_edge_data := a_edge_data fit_defaults;
         a_G_data := a_G_data fit_defaults;
         a_kwargs := [] |};;
  getattr tcm_.

(** [transform(self, X, y=None)].  [G_data] is a local of the body
    (line 185 assigns it) that is read at line 184 before any
    assignment; [data_ids] is not bound anywhere. *)
Definition transform (x : pyval) (y : label) : Py matrix :=
  lG ← getattr G_;
  g ← deref lG;
  amt ← lift (extract_matrices g None);
  let G_data : option gdata := None in
  (* create graph from TCM *)
  gd ← read_local G_data;
  gd ← match gd with
       | GDBool true =>
           g ← lift (MultiGraph amt.2);
           l ← alloc g;
           raise NameError
       | _ => mret gd
       end;
  (* mixture of connected TRs, for each TR *)
  let mixtures := mixtures_of amt.2 in
  (* store variables *)
  modify_self (store_transform gd amt.1.1 amt.1.2 amt.2 mixtures);;
  getattr tcm_.

(** [annotate(self, **kwargs)] *)
Definition annotate (kwargs : list (string * pyval)) : Py unit :=
  lG ← getattr G_;
  g ← deref lG;
  r ← lift (visuals_annotate g kwargs);
  l ← alloc r.1;
  modify_self (store_annotate l r.2).

(** [visualize(self, path_html='index.html', json_graph=None,
    color_functions=None, custom_data=None, plot_tcm=False, **kwargs)] *)
Definition visualize (path_html : string) (json_graph color_functions
    custom_data : pyval) (plot_tcm : bool) (kwargs : list (string * pyval))
    : Py unit :=
  (* color functions *)
  match color_functions with
  | PyNone => mret ()
  | _ =>
      let color_functions :=
        match color_functions with
        | PyDict _ => color_functions
        | _ => PyDict [("default", color_functions)]
        end in
      l ← getattr G;
      mutate l (graph_update [("color", color_functions)])
  end;;
  (* format html *)
  match custom_data with
  | PyDict d => annotate_graph d
  | _ => mret ()
  end;;
  (* to node_link *)
  l ← getattr G;
  g ← deref l;
  modify_self (set_node_link_data_ (node_link_data g));;
  (* [1] plot TCM *)
  (if plot_tcm then
     tcm ← getattr tcm_;
     lift (plot_temporal_matrix tcm kwargs);;
     mret ()
   else mret ());;
  (* [2] visualize force *)
  d ← getattr node_link_data_;
  http ← lift (visualize_force d path_html kwargs);
  modify_self (set_HTTP http).
End methods.

(** ** An instance of [tools], from the specification *)

(** Modelled from the spec: [tools] is not among the sources; a node of
    a graph in node-link form, read from its dict (section 6). *)
Definition spec_node_of (d : gmap string pyval) : option (node * gmap string pyval) :=
  match d !! "id" with
  | Some (PyInt z) => Some (NInt z, delete "id" d)
  | Some (PyStr s) => Some (NStr s, delete "id" d)
  | _ => None
  end.

(** Modelled from the spec: [tools] is not among the sources; an edge of
    a graph in node-link form, read from its dict (section 6). *)
Definition spec_edge_of (d : gmap string pyval)
    : option (node * node * gmap string pyval) :=
  match d !! "source", d !! "target" with
  | Some (PyInt u), Some (PyInt v) => Some (NInt u, NInt v, ∅)
  | Some (PyStr u), Some (PyStr v) => Some (NStr u, NStr v, ∅)
  | _, _ => None
  end.

(** Modelled from the spec: [tools] is not among the sources; section 3,
    a graph node owns the list of its member time indices. *)
Definition spec_nodes (d : node_link) : list (node * gmap string pyval) :=
  match nl_nodes d with
  | Some (NodesDict nd) =>
      (λ km : string * list Z,
         (NStr km.1, {[ "members" := PyList (PyInt <$> km.2) ]})) <$> nd
  | Some (NodesList l) => omap spec_node_of l
  | None => []
  end.

(** Modelled from the spec: [tools] is not among the sources; section 3,
    a graph edge connects two node keys. *)
Definition spec_edges (d : node_link) : list (node * node * gmap string pyval) :=
  match nl_links d with
  | Some (LinksDict ld) =>
      mjoin ((λ kt : string * list string,
                (λ t, (NStr kt.1, NStr t, ∅)) <$> kt.2) <$> ld)
  | Some (LinksList l) => omap spec_edge_of l
  | None => []
  end.

(** Modelled from the spec: [tools] is not among the sources; section
    4.2, an option that maps node keys to values is applied as a node
    attribute, and the nodes it does not mention stay without it. *)
Definition spec_option (g : nxgraph) (kv : string * pyval) : nxgraph :=
  match kv.2 with
  | PyDict d =>
      set_node_attributes g ((λ p : string * pyval, (NStr p.1, p.2)) <$> d) kv.1
  | _ => g
  end.

(** Modelled from the spec: [tools.process_graph] is not among the
    sources.  Section 4.2: the processed graph has the nodes of the
    canonical graph, each with its members, its links as edges, and the
    options applied.  The label sequence only fixes the time indices
    (section 6), which [fit] works out itself.  The stage does not
    fail. *)
Definition spec_process_graph (d : node_link) (y : label)
    (options : list (string * pyval)) : result nxgraph :=
  Ok (foldl spec_option
        {| graph := ∅; nodes := spec_nodes d; edges := spec_edges d;
           multigraph := false |}
        options).

(** Modelled from the spec: [tools] is not among the sources; the
    order of the node keys that section 4.3 sorts by. *)
Definition node_le (a b : node) : Prop :=
  match a, b with
  | NInt x, NInt y => (x ≤ y)%Z
  | NInt _, NStr _ => True
  | NStr _, NInt _ => False
  | NStr x, NStr y => str_le x y
  end.

Global Instance node_le_dec a b : Decision (node_le a b).
Proof. destruct a, b; simpl; apply _. Defined.

(** Modelled from the spec: [tools] is not among the sources; section
    4.3, a member that is not an integer is a [SchemaMismatch]. *)
Definition spec_members (attrs : gmap string pyval) : result (list Z) :=
  match attrs !! "members" with
  | Some (PyList l) =>
      match int_labels l with
      | Some ms => Ok ms
      | None => Err SchemaMismatch
      end
  | Some _ => Err SchemaMismatch
  | None => Ok []
  end.

(** Modelled from the spec: [tools] is not among the sources; the
    members of every node, in the order of the nodes. *)
Fixpoint spec_all_members (nds : list (node * gmap string pyval))
    : result (list (node * list Z)) :=
  match nds with
  | [] => Ok []
  | na :: nds' =>
      ms ← spec_members na.2;
      rest ← spec_all_members nds';
      Ok ((na.1, ms) :: rest)
  end.

Definition indicator (b : bool) : Z := if b then 1 else 0.

Definition dot (u v : list Z) : Z := foldr Z.add 0 (zip_with Z.mul u v).

(** Modelled from the spec: [tools.extract_matrices] is not among the
    sources.  Section 4.3: the nodes are taken in the stable order of
    their keys; [M] has a row per index and a column per node, 1 where
    the index is a member of the node; [A] is 1 at both [(i, j)] and
    [(j, i)] for every edge; [TCM] is the product of [M] and its
    transpose.  Without an index the members found in the graph are
    used.  A member that is not in the index is left out. *)
Definition spec_extract_matrices (g : nxgraph) (index : option (list Z))
    : result (matrix * matrix * matrix) :=
  nms ← spec_all_members
          (merge_sort (λ a b : node * gmap string pyval, node_le a.1 b.1) (nodes g));
  let index := default (np_unique_int (mjoin nms.*2)) index in
  let m := (λ t, (λ nm : node * list Z, indicator (bool_decide (t ∈ nm.2))) <$> nms)
           <$> index in
  let a := (λ i : node * list Z,
              (λ j : node * list Z,
                 indicator (bool_decide
                   (Exists (λ e : node * node * gmap string pyval,
                              same_edge e.1.1 e.1.2 i.1 j.1) (edges g))))
              <$> nms)
           <$> nms in
  let tcm := (λ r, (λ r', dot r r') <$> m) <$> m in
  Ok (a, m, tcm).

(** Modelled from the spec: the module [tools] is not among the
    sources; its two functions as sections 4.2 and 4.3 describe them. *)
Definition spec_tools : Tools :=
  {| process_graph := spec_process_graph;
     extract_matrices := spec_extract_matrices |}.

(** ** Sample inputs *)

(** The two-node scenario of the specification: [a = {0,1,2}],
    [b = {2,3}], one link between them. *)
Definition two_nodes : node_link :=
  {| nl_nodes := Some (NodesDict [("a", [0; 1; 2]); ("b", [2; 3])]);
     nl_links := Some (LinksDict [("a", ["b"])]);
     nl_other := ∅ |}.

(** A world with no graph object, holding a new [DyNeuGraph()]. *)
Definition new_world : world :=
  {| store := ∅; self := blank ∅ |}.

(** Modelled from the spec: the module [visuals] is not among the
    sources, and section 1 of the specification leaves rendering and the
    annotation helpers to external collaborators.  A stand-in that
    renders nothing: [annotate] hands the graph back with the keywords as
    its annotations, plotting yields [None], rendering yields the path. *)
Definition spec_visuals : Visuals :=
  {| visuals_annotate := λ g kwargs, Ok (g, PyDict kwargs);
     plot_temporal_matrix := λ _ _, Ok PyNone;
     visualize_force := λ _ path_html _, Ok (PyStr path_html) |}.

(** ** Notions used by the statements *)

(** The world a computation leaves behind, whether it returns or raises. *)
Definition after {T} (m : Py T) (w : world) : world := (m w).2.

(** A call of any method of the class. *)
Inductive call :=
| CallCache (args : list string) (kwargs : list (string * pyarg))
| CallFit (a : fit_args)
| CallInverseTransform (g : graph_arg) (y : label)
| CallFitTransform (g : graph_arg) (y : label)
| CallSample (x : pyval) (y : label)
| CallTransform (x : pyval) (y : label)
| CallAnnotate (kwargs : list (string * pyval))
| CallAnnotateNodes (kwargs : list (string * values_arg))
| CallAnnotateMembers (kwargs : list (string * values_arg))
| CallAnnotateGraph (kwargs : list (string * pyval))
| CallVisualize (path_html : string) (json_graph color_functions
    custom_data : pyval) (plot_tcm : bool) (kwargs : list (string * pyval)).

Section calls.
Context `{!Tools, !Visuals}.

Definition run (c : call) : world → world :=
  match c with
  | CallCache args kwargs => after (cache args kwargs)
  | CallFit a => after (fit a)
  | CallInverseTransform g y => after (inverse_transform g y)
  | CallFitTransform g y => after (fit_transform g y)
  | CallSample x y => after (sample x y)
  | CallTransform x y => after (transform x y)
  | CallAnnotate kwargs => after (annotate kwargs)
  | CallAnnotateNodes kwargs => after (annotate_nodes kwargs)
  | CallAnnotateMembers kwargs => after (annotate_members kwargs)
  | CallAnnotateGraph kwargs => after (annotate_graph kwargs)
  | CallVisualize p j c d t kwargs => after (visualize p j c d t kwargs)
  end.

(** The instances that exist when no code but the class itself assigns
    attributes: made by the constructor, then used through the methods,
    while the rest of the program creates and changes graph objects. *)
Inductive reachable : world → Prop :=
| reach_init params w : reachable (after (__init__ params) w)
| reach_call c w : reachable w → reachable (run c w)
| reach_store h w :
    reachable w → reachable {| store := h; self := self w |}.
End calls.

(** [tools] with a lookup of both keys in front of [process_graph]. *)
Definition checked_tools (T : Tools) : Tools :=
  {| process_graph := λ d y kwargs,
       if has_key "nodes" d && has_key "links" d
       then @process_graph T d y kwargs else Err KeyError;
     extract_matrices := @extract_matrices T |}.

(** The items of a sized container given as the value of an annotation
    keyword. *)
Definition container_items (values : values_arg) : option (list pyval) :=
  match values with
  | ValArray l => Some l
  | ValObj (PyList l) => Some l
  | ValObj (PyDict d) => Some (PyStr <$> d.*1)
  | _ => None
  end.

(** The member lists of the nodes of the graph given to [fit]. *)
Definition input_members (g : graph_arg) : list (list Z) :=
  match g with
  | GDict {| nl_nodes := Some (NodesDict nd) |} => nd.*2
  | _ => []
  end.

(** Only attribute dicts differ between two graphs. *)
Definition same_shape (g g' : nxgraph) : Prop :=
  (nodes g').*1 = (nodes g).*1 ∧
  (edges g').*1 = (edges g).*1 ∧
  multigraph g' = multigraph g.

(** Weakest preconditions: [wp m Q E w] when [m], run in [w], returns
    [x] leaving a world with [Q x], or raises [e] leaving one with
    [E e]. *)
Definition wp {T} (m : Py T) (Q : T → world → Prop) (E : exn → world → Prop)
    (w : world) : Prop :=
  match m w with
  | (Ok x, w') => Q x w'
  | (Err e, w') => E e w'
  end.

(** ** More sample inputs *)

(** A frame of three rows labelled 10, 20, 30. *)
Definition frame_10_20_30 : DataFrame :=
  {| df_index := [PyInt 10; PyInt 20; PyInt 30];
     df_columns := [("group", [PyStr "rest"; PyStr "task"; PyStr "rest"])] |}.

(** A graph in node-link form, as [json.load] returns it. *)
Definition node_link_form : node_link :=
  {| nl_nodes := Some (NodesList [ {[ "id" := PyStr "a" ]}; {[ "id" := PyStr "b" ]} ]);
     nl_links := Some (LinksList [ {[ "source" := PyStr "a"; "target" := PyStr "b" ]} ]);
     nl_other := ∅ |}.

Definition fit_with (g : graph_arg) (y : label) : fit_args :=
  {| a_G := g; a_X := PyNone; a_y := y; a_node_data := Some [];
     a_edge_data := Some []; a_G_data := GDBool false; a_kwargs := [] |}.

(** The world after [dG = DyNeuGraph(G=two_nodes)]. *)
Definition fitted_world : world :=
  after (@__init__ spec_tools [P_G (GDict two_nodes)]) new_world.

(** The dict that [canonical] computes, given the objects of the store. *)
Definition canonical_dict (h : gmap loc nxgraph) (g : graph_arg)
    : option node_link :=
  match g with
  | GNone => Some (dict_merge skeleton empty_dict)
  | GDict d => Some (dict_merge skeleton d)
  | GGraph l => (λ g0, dict_merge skeleton (node_link_data g0)) <$> h !! l
  end.

(** The graph in [G_data_], when it holds one. *)
Definition G_data_graph (s : DyNeuGraph) : option loc :=
  match G_data_ s with Some (GDGraph l) => Some l | _ => None end.

(** Between [w] and [w'] the instance is the same, the objects other
    than the one at [lo] are the same, and no object has changed but in
    its attribute dicts. *)
Definition attrs_only (lo : option loc) (w w' : world) : Prop :=
  self w' = self w ∧
  ∀ l, (Some l ≠ lo → store w' !! l = store w !! l) ∧
       option_Forall2 same_shape (store w !! l) (store w' !! l).

(** [values.get(n)] for a dict given by its items. *)
Fixpoint dict_get (n : node) (items : list (node * pyval)) : option pyval :=
  match items with
  | [] => None
  | kv :: items' => if decide (kv.1 = n) then Some kv.2 else dict_get n items'
  end.

(** The graph that the processing of [two_nodes] yields. *)
Definition two_nodes_graph : nxgraph :=
  {| graph := ∅;
     nodes := [(NStr "a", {[ "members" := PyList [PyInt 0; PyInt 1; PyInt 2] ]});
               (NStr "b", {[ "members" := PyList [PyInt 2; PyInt 3] ]})];
     edges := [(NStr "a", NStr "b", ∅)];
     multigraph := false |}.

(** A world where the caller holds a graph object at location 1. *)
Definition caller_world : world :=
  {| store := {[ 1%positive := two_nodes_graph ]}; self := blank ∅ |}.

Section fit_outcome.
Context `{!Tools}.

(** What a call of [fit] that returns has done: every stage returned,
    and the instance holds the saved inputs and the results. *)
Definition fit_done (a : fit_args) (w w' : world) : Prop :=
  ∃ d ids data_ids g amt lG gd,
    canonical_dict (store w) (a_G a) = Some d ∧
    graph_ids d = Ok ids ∧
    label_ids (a_y a) ids.2 = Ok data_ids ∧
    process_graph d (a_y a) (a_kwargs a) = Ok g ∧
    extract_matrices g (Some data_ids) = Ok amt ∧
    store w !! lG = None ∧
    self w' = store_fit lG gd ids.1 data_ids amt.1.1 amt.1.2 amt.2
                (mixtures_of amt.2)
                (save_inputs (a_G a) (a_X a) (a_y a) (self w)).
End fit_outcome.

(** ** Notions used by the further properties *)

(** The two annotation loops of [fit], on the graph itself. *)
Definition set_all_node_attributes (g : nxgraph) (node_data : node_attrs)
    : nxgraph :=
  foldl (λ g kv, set_node_attributes g kv.2 kv.1) g node_data.

Fixpoint set_all_edge_attributes (g : nxgraph) (edge_data : edge_attrs)
    : result nxgraph :=
  match edge_data with
  | [] => Ok g
  | kv :: edge_data' =>
      g' ← set_edge_attributes g kv.2 kv.1;
      set_all_edge_attributes g' edge_data'
  end.

(** The node keys of the graph given to [fit]. *)
Definition input_node_keys (g : graph_arg) : list string :=
  match g with
  | GDict {| nl_nodes := Some (NodesDict nd) |} => nd.*1
  | _ => []
  end.

(** The entry of a matrix, when there is one. *)
Definition entry (m : matrix) (i j : nat) : option Z :=
  row ← m !! i; row !! j.

Definition symmetric (m : matrix) : Prop :=
  ∀ i j, entry m i j = entry m j i.

Section fit_world.
Context `{!Tools}.

(** The world a call of [fit] that returns leaves: the processed graph,
    with the attributes of [node_data] and [edge_data] set, is a new
    object, a graph made for [G_data] is another, and the instance holds
    the saved inputs and the results. *)
Definition fit_returns (a : fit_args) (w w' : world) : Prop :=
  ∃ d ids data_ids g amt gfin,
    canonical_dict (store w) (a_G a) = Some d ∧
    graph_ids d = Ok ids ∧
    label_ids (a_y a) ids.2 = Ok data_ids ∧
    process_graph d (a_y a) (a_kwargs a) = Ok g ∧
    extract_matrices g (Some data_ids) = Ok amt ∧
    set_all_edge_attributes
      (set_all_node_attributes g (default [] (a_node_data a)))
      (default [] (a_edge_data a)) = Ok gfin ∧
    let lG := fresh (dom (store w)) in
    let s' gd :=
      store_fit lG gd ids.1 data_ids amt.1.1 amt.1.2 amt.2 (mixtures_of amt.2)
        (save_inputs (a_G a) (a_X a) (a_y a) (self w)) in
    match a_G_data a with
    | GDBool true =>
        ∃ gm ys,
          MultiGraph amt.2 = Ok gm ∧ label_iter (a_y a) = Ok ys ∧
          let l := fresh (dom (<[lG := g]> (store w))) in
          w' = {| store :=
                    <[lG := gfin]>
                      (<[l := set_node_attributes gm
                                (zip (NInt <$> data_ids) ys) "group"]>
                         (<[lG := g]> (store w)));
                  self := s' (GDGraph l) |}
    | gd => w' = {| store := <[lG := gfin]> (store w); self := s' gd |}
    end.
End fit_world.

(** The instance [s] with other values for the two attributes that
    [visualize] assigns. *)
Definition with_render (d : option node_link) (http : option pyval)
    (s : DyNeuGraph) : DyNeuGraph :=
  {| cache_ := cache_ s; G_input_ := G_input_ s; X_ := X_ s; y_ := y_ s;
     G_ := G_ s; G_data_ := G_data_ s; node_ids_ := node_ids_ s;
     data_ids_ := data_ids_ s; adj_ := adj_ s; map_ := map_ s; tcm_ := tcm_ s;
     mixtures_ := mixtures_ s; G := G s; A := A s; M := M s; TCM := TCM s;
     G_inverse_ := G_inverse_ s; mixtures_img_ := mixtures_img_ s;
     annotations_ := annotations_ s; node_link_data_ := d; HTTP := http |}.

(** Two graphs that differ in their graph attributes at most. *)
Definition same_nodes_and_edges (g g' : nxgraph) : Prop :=
  nodes g' = nodes g ∧ edges g' = edges g ∧ multigraph g' = multigraph g.

(** What [visualize] may change: the two attributes it assigns, and the
    graph attributes of the objects that [G] and [G_] name. *)
Definition rendered (w w' : world) : Prop :=
  (∃ d http, self w' = with_render d http (self w)) ∧
  ∀ l, option_Forall2 same_nodes_and_edges (store w !! l) (store w' !! l) ∧
       (Some l ≠ G (self w) → Some l ≠ G_ (self w) →
        store w' !! l = store w !! l).

(** The values of an [int64] array. *)
Definition int64 (z : Z) : Prop := - 2 ^ 63 ≤ z < 2 ^ 63.

(** The list that one keyword of [annotate_nodes] is zipped with on a
    graph of [n] nodes; a zero-dimensional array gives none. *)
Definition keyword_items (n : nat) (values : values_arg) : option (list pyval) :=
  match values with
  | ValArray l => Some l
  | ValArray0 _ => None
  | ValObj (PyDict d) => Some (PyStr <$> d.*1)
  | ValObj (PyList l) => Some l
  | ValObj v => Some (replicate n v)
  end.

(** The graph after the keywords of [annotate_nodes] have been applied
    in turn. *)
Definition annotated (n : nat) (g : nxgraph)
    (kwargs : list (string * values_arg)) : nxgraph :=
  foldl (λ g kv, set_node_attributes g
                   (zip (nodes g).*1 (default [] (keyword_items n kv.2))) kv.1)
        g kwargs.

(** [values[(u, v)]] for a dict keyed by the edges of an undirected
    graph, given by its items: the value of the last item that names the
    edge, in either direction. *)
Fixpoint edge_get (u v : node) (items : list (node * node * pyval))
    : option pyval :=
  match items with
  | [] => None
  | item :: items' =>
      match edge_get u v items' with
      | Some x => Some x
      | None => if same_edge u v item.1.1 item.1.2 then Some item.2 else None
      end
  end.

(** An attribute dict after a list of named updates, each of which may
    have a value for it. *)
Definition updated_attrs {T} (val : T → option pyval)
    (items : list (string * T)) (a : gmap string pyval) : gmap string pyval :=
  foldl (λ a kv, match val kv.2 with
                 | Some v => <[kv.1 := v]> a
                 | None => a
                 end) a items.

(** ** Sample inputs of the further properties *)

(** [fit(G=two_nodes, y=[...], G_data=True)] with four labels. *)
Definition labelled_args : fit_args :=
  {| a_G := GDict two_nodes; a_X := PyNone;
     a_y := LVal (PyList [PyStr "rest"; PyStr "task"; PyStr "rest"; PyStr "task"]);
     a_node_data := Some []; a_edge_data := Some [];
     a_G_data := GDBool true; a_kwargs := [] |}.

(** [fit(G=two_nodes, node_data={'color': {'a': 'blue'}})] *)
Definition coloured_args : fit_args :=
  {| a_G := GDict two_nodes; a_X := PyNone; a_y := LVal PyNone;
     a_node_data := Some [("color", [(NStr "a", PyStr "blue")])];
     a_edge_data := Some []; a_G_data := GDBool false; a_kwargs := [] |}.

(** [fit(G=two_nodes, node_data={'color': {'a': 'blue'}},
    edge_data={'weight': {('b', 'a'): 2}})] *)
Definition weighted_args : fit_args :=
  {| a_G := GDict two_nodes; a_X := PyNone; a_y := LVal PyNone;
     a_node_data := Some [("color", [(NStr "a", PyStr "blue")])];
     a_edge_data := Some [("weight", [(NStr "b", NStr "a", PyInt 2)])];
     a_G_data := GDBool false; a_kwargs := [] |}.

(** [fit(G=two_nodes, members={'a': 'x'})]: the option overrides the
    members of node [a] by a string. *)
Definition broken_args : fit_args :=
  {| a_G := GDict two_nodes; a_X := PyNone; a_y := LVal PyNone;
     a_node_data := Some []; a_edge_data := Some [];
     a_G_data := GDBool false;
     a_kwargs := [("members", PyDict [("a", PyStr "x")])] |}.

(** The matrix of temporal connectivity of [two_nodes]. *)
Definition two_nodes_tcm : matrix :=
  [[1; 1; 1; 0]; [1; 1; 1; 0]; [1; 1; 2; 1]; [0; 0; 1; 1]].

(** * Properties *)

(** ** Rules for weakest preconditions *)

Section wp_rules.
Context {T U : Type}.
Implicit Types (Q : T → world → Prop) (E : exn → world → Prop).

Lemma wp_run (m : Py T) Q E w :
  wp m Q E w →
  match (m w).1 with Ok x => Q x (after m w) | Err e => E e (after m w) end.
Proof. unfold wp, after. by destruct (m w) as [[x|e] w']. Qed.

Lemma wp_mono (m : Py T) Q Q' E E' w :
  wp m Q E w →
  (∀ x w', Q x w' → Q' x w') → (∀ e w', E e w' → E' e w') →
  wp m Q' E' w.
Proof. unfold wp. destruct (m w) as [[x|e] w']; eauto. Qed.

Lemma wp_ret (x : T) Q E w : Q x w → wp (mret x) Q E w.
Proof. done. Qed.

Lemma wp_raise e Q E w : E e w → wp (raise e) Q E w.
Proof. done. Qed.

Lemma wp_lift (r : result T) Q E w :
  match r with Ok x => Q x w | Err e => E e w end → wp (lift r) Q E w.
Proof. unfold wp, lift. by destruct r. Qed.

Lemma wp_getattr (field : DyNeuGraph → option T) Q E w :
  match field (self w) with Some x => Q x w | None => E AttributeError w end →
  wp (getattr field) Q E w.
Proof. unfold wp, getattr. by destruct (field (self w)). Qed.

Lemma wp_bind (m : Py T) (f : T → Py U) (R : U → world → Prop) E w :
  wp m (λ x w', wp (f x) R E w') E w → wp (m ≫= f) R E w.
Proof.
  unfold wp, mbind, Py_bind. by destruct (m w) as [[x|e] w'].
Qed.
End wp_rules.

Lemma wp_modify_self f (Q : unit → world → Prop) E w :
  Q () {| store := store w; self := f (self w) |} → wp (modify_self f) Q E w.
Proof. done. Qed.

Lemma wp_alloc g (Q : loc → world → Prop) E w :
  (∀ l, store w !! l = None →
        Q l {| store := <[l := g]> (store w); self := self w |}) →
  wp (alloc g) Q E w.
Proof.
  intros HQ. unfold wp, alloc. apply HQ.
  apply not_elem_of_dom, is_fresh.
Qed.

Lemma wp_deref l (Q : nxgraph → world → Prop) E w :
  match store w !! l with
  | Some g => Q g w
  | None => E InvalidReference w
  end → wp (deref l) Q E w.
Proof. unfold wp, deref. by destruct (store w !! l). Qed.

Lemma wp_mutate l f (Q : unit → world → Prop) E w :
  match store w !! l with
  | Some g => Q () {| store := <[l := f g]> (store w); self := self w |}
  | None => E InvalidReference w
  end → wp (mutate l f) Q E w.
Proof. unfold wp, mutate. by destruct (store w !! l). Qed.

Lemma wp_for_each {T} (body : T → Py unit) items (I : world → Prop) E w :
  I w → (∀ x w', x ∈ items → I w' → wp (body x) (λ _, I) E w') →
  wp (for_each body items) (λ _, I) E w.
Proof.
  revert w. induction items as [|x items IH]; intros w Hw Hbody; [done|].
  simpl. apply wp_bind.
  eapply wp_mono; [apply Hbody; [left|done] | | done].
  intros [] w' Hw'. apply IH; [done|].
  intros y w'' Hy. apply Hbody. by right.
Qed.

(** ** The steps of [fit] *)

Lemma canonical_wp g w :
  wp (canonical g)
     (λ d w', self w' = self w ∧ store w ⊆ store w' ∧
              canonical_dict (store w) g = Some d)
     (λ e w', w' = w) w.
Proof.
  destruct g as [|l|d]; simpl; [done| |done].
  apply wp_bind, wp_deref. destruct (store w !! l) as [g0|] eqn:Hl; [|done].
  apply wp_bind, wp_alloc. intros l' Hl'.
  apply wp_bind, wp_deref. simpl. rewrite lookup_insert_eq.
  apply wp_ret. simpl. split_and!; [done| |done].
  by apply insert_subseteq.
Qed.

Lemma make_G_data_wp gd tcm data_ids y w :
  wp (make_G_data gd tcm data_ids y)
     (λ _ w', self w' = self w ∧ store w ⊆ store w')
     (λ _ w', self w' = self w ∧ store w ⊆ store w') w.
Proof.
  destruct gd as [[]|l]; simpl; [|done..].
  apply wp_bind, wp_lift. destruct (MultiGraph tcm) as [g|e]; [|done].
  apply wp_bind, wp_alloc. intros l Hl.
  apply wp_bind, wp_lift.
  destruct (label_iter y) as [ys|e]; simpl.
  - apply wp_bind, wp_mutate. simpl. rewrite lookup_insert_eq.
    apply wp_ret. simpl. split; [done|].
    rewrite insert_insert_eq. by apply insert_subseteq.
  - split; [done|]. by apply insert_subseteq.
Qed.

Section fit_steps.
Context `{!Tools}.

Lemma fit_wp a w :
  wp (fit a)
     (λ _ w', store w ⊆ store w' ∧ fit_done a w w')
     (λ _ w', store w ⊆ store w' ∧
              self w' = save_inputs (a_G a) (a_X a) (a_y a) (self w)) w.
Proof.
  unfold fit.
  apply wp_bind, wp_modify_self.
  apply wp_bind.
  eapply wp_mono; [apply canonical_wp| |by intros e w' ->].
  simpl. intros d w1 (Hs1 & Hh1 & Hd).
  apply wp_bind, wp_lift. destruct (graph_ids d) as [ids|e] eqn:Hids; [|done].
  apply wp_bind, wp_lift.
  destruct (label_ids (a_y a) ids.2) as [data_ids|e] eqn:Hdata; [|done].
  apply wp_bind, wp_lift.
  destruct (process_graph d (a_y a) (a_kwargs a)) as [g|e] eqn:Hg; [|done].
  apply wp_bind, wp_alloc. intros lG HlG.
  assert (store w !! lG = None) as HlG0.
  { by eapply lookup_weaken_None. }
  assert (store w ⊆ <[lG := g]> (store w1)) as Hh2.
  { etrans; [done|]. by apply insert_subseteq. }
  apply wp_bind, wp_lift.
  destruct (extract_matrices g (Some data_ids)) as [amt|e] eqn:Hamt; [|done].
  apply wp_bind.
  eapply wp_mono; [apply make_G_data_wp| |].
  2:{ simpl. intros e w' [-> Hh]. split; [by etrans|done]. }
  simpl. intros gd w3 [Hs3 Hh3].
  set (I := λ w' : world, store w ⊆ store w' ∧
              self w' = save_inputs (a_G a) (a_X a) (a_y a) (self w)).
  assert (I w3) as HI3. { split; [by etrans|by rewrite Hs3]. }
  assert (∀ w' f,
    I w' → wp (mutate lG f) (λ _, I) (λ _, I) w') as Hmut.
  { intros w' f [Hh Hs]. apply wp_mutate.
    destruct (store w' !! lG); [|done].
    split; [|done]. simpl. by apply insert_subseteq_r. }
  apply wp_bind.
  eapply wp_mono;
    [apply (wp_for_each _ _ I (λ _, I)); [done|]| |by intros].
  { intros kv w' _ Hw'. by apply Hmut. }
  simpl. intros [] w4 HI4.
  apply wp_bind.
  eapply wp_mono;
    [apply (wp_for_each _ _ I (λ _, I)); [done|]| |by intros].
  { intros kv w' _ Hw'.
    apply wp_bind, wp_deref. destruct (store w' !! lG) as [g'|]; [|done].
    apply wp_bind, wp_lift.
    destruct (set_edge_attributes g' kv.2 kv.1) as [g''|e]; [|done].
    by apply Hmut. }
  simpl. intros [] w5 [Hh5 Hs5].
  apply wp_modify_self. simpl. split; [done|].
  exists d, ids, data_ids, g, amt, lG, gd. by rewrite Hs5.
Qed.
End fit_steps.

(** ** [cache] *)

Lemma dict_update_lookup_notin {V} (c : gmap string V) kwargs k :
  k ∉ kwargs.*1 → dict_update c kwargs !! k = c !! k.
Proof.
  unfold dict_update. revert c.
  induction kwargs as [|[k' v'] kwargs IH]; intros c Hk; [done|].
  simpl in *. apply not_elem_of_cons in Hk as [Hne Hk].
  rewrite IH by done. by rewrite lookup_insert_ne.
Qed.

Lemma dict_update_lookup_in {V} (c : gmap string V) kwargs k v :
  NoDup kwargs.*1 → (k, v) ∈ kwargs → dict_update c kwargs !! k = Some v.
Proof.
  unfold dict_update. revert c.
  induction kwargs as [|[k' v'] kwargs IH]; intros c Hnd Hin.
  { by apply elem_of_nil in Hin. }
  simpl in *. apply NoDup_cons in Hnd as [Hk' Hnd].
  apply elem_of_cons in Hin as [[= -> ->]|Hin].
  - fold (dict_update (<[k':=v']> c) kwargs).
    rewrite dict_update_lookup_notin by done. apply lookup_insert_eq.
  - by apply IH.
Qed.

Lemma cache_scan_found c pre k post v :
  Forall (λ k', arg_is_none (cache_get c k') = true) pre →
  c !! k = Some v → arg_is_none v = false →
  cache_scan c (pre ++ k :: post) = v.
Proof.
  intros Hpre Hk Hv. induction Hpre as [|k' pre Hk' _ IH]; simpl.
  - unfold cache_get. rewrite Hk. simpl. by rewrite Hv.
  - by rewrite Hk'.
Qed.

Lemma cache_scan_none c args :
  Forall (λ k, arg_is_none (cache_get c k) = true) args →
  cache_scan c args = ArgVal PyNone.
Proof. induction 1 as [|k args Hk _ IH]; simpl; [done|]. by rewrite Hk. Qed.

(** C10.  Called with keywords only, [cache] puts every pair into the
    cache dict (the other keys keep their values) and returns the dict.
    Called with keys, it changes nothing and returns the stored value of
    the first key, in the order given, whose stored value is not [None],
    or [None] when no key has one. *)
Theorem cache_updates_or_looks_up :
  (∀ kwargs w,
     let c := dict_update (cache_ (self w)) kwargs in
     cache [] kwargs w
       = (Ok (CacheDict c),
          {| store := store w; self := set_cache_ c (self w) |}) ∧
     (NoDup kwargs.*1 → ∀ k v, (k, v) ∈ kwargs → c !! k = Some v) ∧
     (∀ k, k ∉ kwargs.*1 → c !! k = cache_ (self w) !! k)) ∧
  (∀ pre k post kwargs w v,
     Forall (λ k', arg_is_none (cache_get (cache_ (self w)) k') = true) pre →
     cache_ (self w) !! k = Some v → arg_is_none v = false →
     cache (pre ++ k :: post) kwargs w = (Ok (Value v), w)) ∧
  (∀ k args kwargs w,
     Forall (λ k', arg_is_none (cache_get (cache_ (self w)) k') = true)
            (k :: args) →
     cache (k :: args) kwargs w = (Ok (Value (ArgVal PyNone)), w)).
Proof.
  split_and!.
  - intros kwargs w c. split_and!; [done| |].
    + intros Hnd k v Hin. by apply dict_update_lookup_in.
    + intros k Hk. by apply dict_update_lookup_notin.
  - intros pre k post kwargs w v Hpre Hk Hv. unfold cache.
    erewrite cache_scan_found by done. by destruct pre.
  - intros k args kwargs w Hall. unfold cache.
    by rewrite cache_scan_none.
Qed.

(** ** Mixtures *)

Lemma elem_of_nonzero_from i row j :
  j ∈ nonzero_from i row ↔
  ∃ k v, j = (i + k)%nat ∧ row !! k = Some v ∧ v ≠ 0.
Proof.
  revert i. induction row as [|x row IH]; intros i; simpl.
  { split; [by intros ?%elem_of_nil|]. by intros (k & v & _ & ? & _). }
  case_decide as Hx.
  - rewrite IH. split.
    + intros (k & v & -> & Hk & Hv). exists (S k), v. split_and!; [lia|done..].
    + intros (k & v & -> & Hk & Hv). destruct k as [|k]; simplify_eq/=.
      exists k, v. split_and!; [lia|done..].
  - rewrite elem_of_cons, IH. split.
    + intros [->|(k & v & -> & Hk & Hv)].
      * exists 0%nat, x. split_and!; [lia|done..].
      * exists (S k), v. split_and!; [lia|done..].
    + intros (k & v & -> & Hk & Hv). destruct k as [|k]; simplify_eq/=.
      * left. lia.
      * right. exists k, v. split_and!; [lia|done..].
Qed.

Lemma nonzero_from_sorted i row : StronglySorted lt (nonzero_from i row).
Proof.
  revert i. induction row as [|x row IH]; intros i; simpl; [constructor|].
  case_decide; [done|]. constructor; [done|].
  apply Forall_forall. intros j (k & v & -> & _)%elem_of_nonzero_from. lia.
Qed.

Lemma elem_of_nonzero row j :
  j ∈ nonzero row ↔ ∃ v, row !! j = Some v ∧ v ≠ 0.
Proof.
  unfold nonzero. rewrite elem_of_nonzero_from. split.
  - intros (k & v & -> & ?). by exists v.
  - intros (v & ?). by exists j, v.
Qed.

Lemma seqZ_sorted m n : StronglySorted Z.le (seqZ m n).
Proof.
  unfold seqZ. generalize (Z.to_nat n). intros k.
  generalize 0%nat. induction k as [|k IH]; intros i; simpl; [constructor|].
  constructor; [apply IH|].
  apply Forall_forall. intros z (j & -> & Hj)%list_elem_of_fmap.
  apply elem_of_seq in Hj. lia.
Qed.

Lemma int_labels_PyInt l : int_labels (PyInt <$> l) = Some l.
Proof.
  unfold int_labels. apply mapM_Some.
  induction l; constructor; done.
Qed.

Lemma np_unique_int_spec l :
  StronglySorted Z.le (np_unique_int l) ∧ NoDup (np_unique_int l) ∧
  ∀ t, t ∈ np_unique_int l ↔ t ∈ l.
Proof.
  unfold np_unique_int. split_and!.
  - apply (StronglySorted_merge_sort Z.le).
  - rewrite merge_sort_Permutation. apply NoDup_remove_dups.
  - intros t. rewrite merge_sort_Permutation. apply elem_of_remove_dups.
Qed.

Lemma label_ids_frame df ids0 ids :
  label_ids (LFrame df) ids0 = Ok ids → ids = np_arange (df_len df).
Proof.
  simpl. unfold reset_index.
  case_decide; [done|]. simpl. unfold np_sort_index. simpl.
  rewrite int_labels_PyInt. intros [= <-].
  apply (StronglySorted_unique Z.le).
  - apply (StronglySorted_merge_sort Z.le).
  - apply seqZ_sorted.
  - apply merge_sort_Permutation.
Qed.

Lemma graph_ids_members h g d ids :
  canonical_dict h g = Some d → graph_ids d = Ok ids →
  ids.2 = np_unique_int (mjoin (input_members g)).
Proof.
  unfold graph_ids, getitem_nodes.
  destruct g as [|l|[[[nd|nl]|] lk ot]]; simpl.
  - by intros [= <-] [= <-].
  - destruct (h !! l) as [g0|]; [|done]. simpl. intros [= <-]. simpl.
    by case_decide.
  - by intros [= <-] [= <-].
  - intros [= <-]. simpl. by case_decide.
  - by intros [= <-] [= <-].
Qed.

Section fit_results.
Context `{!Tools}.

Lemma fit_Ok a w w' :
  fit a w = (Ok (), w') → store w ⊆ store w' ∧ fit_done a w w'.
Proof. intros Hfit. pose proof (fit_wp a w) as Hwp. unfold wp in Hwp. by rewrite Hfit in Hwp. Qed.

Lemma fit_Err a w e w' :
  fit a w = (Err e, w') →
  store w ⊆ store w' ∧
  self w' = save_inputs (a_G a) (a_X a) (a_y a) (self w).
Proof. intros Hfit. pose proof (fit_wp a w) as Hwp. unfold wp in Hwp. by rewrite Hfit in Hwp. Qed.

Lemma fit_store a w : store w ⊆ store (after (fit a) w).
Proof.
  pose proof (fit_wp a w) as Hwp. unfold wp, after in *.
  destruct (fit a w) as [[[]|e] w']; simpl; tauto.
Qed.

Lemma transform_eq x y w :
  transform x y w =
    (Err match G_ (self w) with
         | None => AttributeError
         | Some lG =>
             match store w !! lG with
             | None => InvalidReference
             | Some g =>
                 match extract_matrices g None with
                 | Err e => e
                 | Ok _ => UnboundLocalError
                 end
             end
         end, w).
Proof.
  unfold transform, mbind, Py_bind, getattr, deref, lift.
  destruct (G_ (self w)) as [lG|]; [|done].
  destruct (store w !! lG) as [g|]; [|done].
  by destruct (extract_matrices g None).
Qed.

(** C1.  [transform] never stores or returns anything: whatever the
    instance, it raises and leaves the world as it was.  On a fitted
    instance whose graph [extract_matrices] accepts, what it raises is
    the [UnboundLocalError] of reading [G_data]. *)
Theorem transform_raises :
  (∀ x y w, ∃ e, transform x y w = (Err e, w)) ∧
  (∀ x y w lG g amt,
     G_ (self w) = Some lG → store w !! lG = Some g →
     extract_matrices g None = Ok amt →
     transform x y w = (Err UnboundLocalError, w)).
Proof.
  split.
  - intros x y w. eexists. apply transform_eq.
  - intros x y w lG g amt HG Hl Hamt.
    by rewrite transform_eq, HG, Hl, Hamt.
Qed.

(** C4.  The mixtures derived from a matrix are, row by row, the
    columns that hold a non-zero entry, in increasing order: column
    [t'] is in the mixture of row [t] exactly when [TCM[t][t']] is not
    zero.  These are the mixtures [fit] stores next to its [tcm_]. *)
Theorem mixtures_are_nonzero_columns :
  (∀ tcm : matrix,
     length (mixtures_of tcm) = length tcm ∧
     ∀ t row, tcm !! t = Some row →
       ∃ mix, mixtures_of tcm !! t = Some mix ∧
              StronglySorted lt mix ∧
              ∀ t', t' ∈ mix ↔ ∃ v, row !! t' = Some v ∧ v ≠ 0) ∧
  (∀ a w w', fit a w = (Ok (), w') →
     ∃ tcm, tcm_ (self w') = Some tcm ∧
            mixtures_ (self w') = Some (mixtures_of tcm)).
Proof.
  split.
  - intros tcm. unfold mixtures_of, matrix in *. split; [apply length_fmap|].
    intros t row Ht. exists (nonzero row). split_and!.
    + by rewrite list_lookup_fmap, Ht.
    + apply nonzero_from_sorted.
    + apply elem_of_nonzero.
  - intros a w w' (_ & d & ids & data_ids & g & amt & lG & gd & Hfit)%fit_Ok.
    destruct Hfit as (_ & _ & _ & _ & _ & _ & ->). by exists amt.2.
Qed.

(** C2, as amended.  When [fit] raises, at whatever stage, the
    derived state is as it was before the call: [G_], [G_data_],
    [node_ids_], [data_ids_], [adj_], [map_], [tcm_], [mixtures_] and
    the aliases [G], [A], [M], [TCM] are unchanged, and so is every
    graph object that existed.  Only the saved inputs [G_input_], [X_]
    and [y_] have been overwritten, with the arguments of the call. *)
Theorem fit_failure_keeps_derived_state a w e w' :
  fit a w = (Err e, w') →
  self w' = save_inputs (a_G a) (a_X a) (a_y a) (self w) ∧
  (G_input_ (self w') = Some (a_G a) ∧ X_ (self w') = Some (a_X a) ∧
   y_ (self w') = Some (a_y a)) ∧
  (G_ (self w') = G_ (self w) ∧ G_data_ (self w') = G_data_ (self w) ∧
   node_ids_ (self w') = node_ids_ (self w) ∧
   data_ids_ (self w') = data_ids_ (self w) ∧
   adj_ (self w') = adj_ (self w) ∧ map_ (self w') = map_ (self w) ∧
   tcm_ (self w') = tcm_ (self w) ∧
   mixtures_ (self w') = mixtures_ (self w) ∧
   G (self w') = G (self w) ∧ A (self w') = A (self w) ∧
   M (self w') = M (self w) ∧ TCM (self w') = TCM (self w)) ∧
  (∀ l g, store w !! l = Some g → store w' !! l = Some g).
Proof.
  intros [Hh ->]%fit_Err. split_and!; try done.
  intros l g Hl. by eapply lookup_weaken.
Qed.

(** C3, as amended.  The time indices [fit] stores in [data_ids_]:
    for a data frame [y], the row numbers [0..len(y)-1] (its own row
    labels are reset first); for any other [y] that is not [None],
    [0..len(y)-1]; for [y = None], when every member index of the input
    graph fits a signed 64-bit integer, the distinct member indices of
    the nodes of the input graph, in increasing order. *)
Theorem fit_data_ids a w w' :
  fit a w = (Ok (), w') →
  ∃ ids, data_ids_ (self w') = Some ids ∧
    match a_y a with
    | LFrame df => ids = np_arange (df_len df)
    | LVal PyNone =>
        Forall (Forall int64) (input_members (a_G a)) →
        StronglySorted Z.le ids ∧ NoDup ids ∧
        ∀ t, t ∈ ids ↔ ∃ ms, ms ∈ input_members (a_G a) ∧ t ∈ ms
    | LVal v => ∃ n, py_len v = Ok n ∧ ids = np_arange n
    end.
Proof.
  intros (_ & d & ids & data_ids & g & amt & lG & gd & Hfit)%fit_Ok.
  destruct Hfit as (Hd & Hids & Hdata & _ & _ & _ & ->).
  exists data_ids. split; [done|].
  destruct (a_y a) as [df|v].
  - by eapply label_ids_frame.
  - assert (v = PyNone → StronglySorted Z.le data_ids ∧ NoDup data_ids ∧
      ∀ t, t ∈ data_ids ↔ ∃ ms, ms ∈ input_members (a_G a) ∧ t ∈ ms) as HNone.
    { intros ->. simpl in Hdata. injection Hdata as <-.
      erewrite graph_ids_members by done.
      destruct (np_unique_int_spec (mjoin (input_members (a_G a))))
        as (? & ? & Hin).
      split_and!; [done..|]. intros t. rewrite Hin, list_elem_of_join.
      split; intros (ms & ? & ?); eauto. }
    destruct v; [intros _; by apply HNone|..]; simpl in Hdata; try done;
      injection Hdata as <-; eauto.
Qed.
End fit_results.

(** ** The canonical graph *)

Lemma canonical_dict_keys h g d :
  canonical_dict h g = Some d →
  has_key "nodes" d = true ∧ has_key "links" d = true ∧
  is_Ok (getitem_nodes d).
Proof.
  assert (∀ x, let d := dict_merge skeleton x in
    has_key "nodes" d = true ∧ has_key "links" d = true ∧
    is_Ok (getitem_nodes d)) as Hmerge.
  { intros [nd lk ot]. unfold has_key, getitem_nodes. simpl.
    destruct nd, lk; simpl; split_and!; done. }
  destruct g as [|l|d0]; simpl.
  - intros [= <-]. apply Hmerge.
  - destruct (h !! l); [|done]. intros [= <-]. apply Hmerge.
  - intros [= <-]. apply Hmerge.
Qed.

Lemma canonical_Ok g w d w' :
  canonical g w = (Ok d, w') →
  self w' = self w ∧ store w ⊆ store w' ∧
  canonical_dict (store w) g = Some d.
Proof.
  intros Hc. pose proof (canonical_wp g w) as Hwp.
  unfold wp in Hwp. by rewrite Hc in Hwp.
Qed.

Lemma has_key_merge k a b :
  has_key k (dict_merge a b) = has_key k b || has_key k a.
Proof.
  unfold has_key, dict_merge. simpl. repeat case_decide.
  - by destruct (nl_nodes b), (nl_nodes a).
  - by destruct (nl_links b), (nl_links a).
  - rewrite lookup_union.
    by destruct (nl_other b !! k), (nl_other a !! k).
Qed.

(** C5.  Whatever [G] is, the canonical dict has a ["nodes"] and a
    ["links"] entry, so that [G['nodes']] is no [KeyError], and checking
    for both keys in front of [process_graph] changes nothing in [fit].
    For [G = None] both containers are empty.  A serialized dict is laid
    over the skeleton: a key is present when the dict or the skeleton
    has it, with the value of the dict when the dict has it. *)
Theorem canonical_has_nodes_and_links (T : Tools) :
  (∀ g w d w', canonical g w = (Ok d, w') →
     has_key "nodes" d = true ∧ has_key "links" d = true ∧
     is_Ok (getitem_nodes d)) ∧
  (∀ a w, @fit (checked_tools T) a w = @fit T a w) ∧
  (∀ w, ∃ d, canonical GNone w = (Ok d, w) ∧
     nl_nodes d = Some (NodesDict []) ∧ nl_links d = Some (LinksDict []) ∧
     nl_other d = ∅) ∧
  (∀ d0 w, ∃ d, canonical (GDict d0) w = (Ok d, w) ∧
     (∀ k, has_key k d = has_key k d0 || has_key k skeleton) ∧
     nl_nodes d = Some (default (NodesDict []) (nl_nodes d0)) ∧
     nl_links d = Some (default (LinksDict []) (nl_links d0)) ∧
     nl_other d = nl_other d0).
Proof.
  split_and!.
  - intros g w d w' (_ & _ & Hd)%canonical_Ok. by eapply canonical_dict_keys.
  - intros a w. unfold fit, mbind, Py_bind. simpl.
    destruct (canonical _ _) as [[d|e] w1] eqn:Hc; [|done].
    apply canonical_Ok in Hc as (_ & _ & Hd).
    apply canonical_dict_keys in Hd as (Hn & Hl & _).
    unfold checked_tools. simpl. by rewrite Hn, Hl.
  - intros w. eexists. split; [done|]. simpl. split_and!; [done..|].
    apply (left_id_L ∅ (∪)).
  - intros d0 w. eexists. split; [done|]. split_and!.
    + intros k. apply has_key_merge.
    + simpl. by destruct (nl_nodes d0).
    + simpl. by destruct (nl_links d0).
    + simpl. apply (right_id_L ∅ (∪)).
Qed.

(** C6.  [fit] given a graph object works on a copy: the conversion to
    node/link form reads a new object, and the caller's graph, like every
    object that existed before the call, is the same after [fit], whether
    [fit] returns or raises. *)
Theorem fit_keeps_callers_graph (T : Tools) a w l g :
  a_G a = GGraph l → store w !! l = Some g →
  (∃ l', l' ≠ l ∧
     canonical (GGraph l) w
       = (Ok (dict_merge skeleton (node_link_data g)),
          {| store := <[l' := g]> (store w); self := self w |})) ∧
  store (after (fit a) w) !! l = Some g.
Proof.
  intros HG Hl. split.
  - exists (fresh (dom (store w))). split.
    + intros Heq. pose proof (is_fresh (dom (store w))) as Hfresh.
      rewrite Heq in Hfresh. apply Hfresh, elem_of_dom. by eexists.
    + unfold canonical, mbind, Py_bind, deref, alloc. rewrite Hl. simpl.
      by rewrite lookup_insert_eq.
  - eapply lookup_weaken; [done|]. apply fit_store.
Qed.

(** ** Annotations *)

Lemma set_node_attr_keys name nds item :
  (set_node_attr name nds item).*1 = nds.*1.
Proof.
  unfold set_node_attr. rewrite <-list_fmap_compose.
  apply list_fmap_ext. intros i na _. simpl. by case_decide.
Qed.

Lemma foldl_set_node_attr_keys name values nds :
  (foldl (set_node_attr name) nds values).*1 = nds.*1.
Proof.
  revert nds. induction values as [|v values IH]; intros nds; [done|].
  simpl. by rewrite IH, set_node_attr_keys.
Qed.

Lemma same_shape_refl g : same_shape g g.
Proof. done. Qed.

Lemma same_shape_trans g1 g2 g3 :
  same_shape g1 g2 → same_shape g2 g3 → same_shape g1 g3.
Proof. intros (?&?&?) (?&?&?). split_and!; congruence. Qed.

Lemma set_node_attributes_shape g values name :
  same_shape g (set_node_attributes g values name).
Proof.
  split_and!; [|done..]. simpl. apply foldl_set_node_attr_keys.
Qed.

Lemma graph_update_shape kwargs g : same_shape g (graph_update kwargs g).
Proof. done. Qed.

Lemma attrs_only_refl lo w : attrs_only lo w w.
Proof.
  split; [done|]. intros l. split; [done|].
  destruct (store w !! l); constructor. apply same_shape_refl.
Qed.

Lemma attrs_only_mutate l w0 w g g' :
  attrs_only (Some l) w0 w → store w !! l = Some g → same_shape g g' →
  attrs_only (Some l) w0 {| store := <[l := g']> (store w); self := self w |}.
Proof.
  intros [Hs Hst] Hl Hg. split; [done|]. intros l'. simpl.
  destruct (decide (l = l')) as [<-|Hne].
  - split; [done|]. rewrite lookup_insert_eq.
    destruct (Hst l) as [_ Hrel]. rewrite Hl in Hrel.
    inversion Hrel as [g0 ? Hg0|]; subst. constructor.
    by eapply same_shape_trans.
  - rewrite lookup_insert_ne by done. apply Hst.
Qed.

Lemma annotate_nodes_wp kwargs w0 :
  wp (annotate_nodes kwargs)
     (λ _, attrs_only (G_ (self w0)) w0)
     (λ _, attrs_only (G_ (self w0)) w0) w0.
Proof.
  apply wp_for_each; [apply attrs_only_refl|].
  intros [name values] w _ Hw. pose proof Hw as [Hs _]. simpl.
  apply wp_bind.
  assert (wp (node_values values)
            (λ _ w', w' = w) (λ _ w', w' = w) w) as Hvalues.
  { unfold node_values.
    destruct values as [l|v|v]; [done..|].
    destruct v; try done;
      (apply wp_bind, wp_getattr; destruct (G_ (self w)); [|done];
       apply wp_bind, wp_deref; by destruct (store w !! _)). }
  eapply wp_mono; [apply Hvalues| |by intros ? ? ->].
  intros vs ? ->.
  apply wp_bind, wp_getattr. destruct (G_ (self w)) as [lG|] eqn:HG; [|done].
  apply wp_bind, wp_deref. destruct (store w !! lG) as [g|] eqn:Hl; [|done].
  apply wp_mutate. rewrite Hl. rewrite Hs in HG. rewrite HG in *.
  eapply attrs_only_mutate; [done..|]. apply set_node_attributes_shape.
Qed.

Lemma annotate_members_wp kwargs w0 :
  wp (annotate_members kwargs)
     (λ _, attrs_only (G_data_graph (self w0)) w0)
     (λ _, attrs_only (G_data_graph (self w0)) w0) w0.
Proof.
  apply wp_for_each; [apply attrs_only_refl|].
  intros [name values] w _ Hw. pose proof Hw as [Hs _]. simpl.
  apply wp_bind.
  assert (wp (member_values values)
            (λ _ w', w' = w) (λ _ w', w' = w) w) as Hvalues.
  { unfold member_values. destruct values as [l|v|v]; [done..|]. by destruct v. }
  eapply wp_mono; [apply Hvalues| |by intros ? ? ->].
  intros vs ? ->.
  apply wp_bind, wp_getattr.
  destruct (G_data_ (self w)) as [[b|l]|] eqn:HG; [done| |done].
  apply wp_bind, wp_deref. destruct (store w !! l) as [g|] eqn:Hl; [|done].
  apply wp_mutate. rewrite Hl.
  unfold G_data_graph in *. rewrite Hs in HG. rewrite HG in *.
  eapply attrs_only_mutate; [done..|]. apply set_node_attributes_shape.
Qed.

Lemma annotate_graph_wp kwargs w :
  wp (annotate_graph kwargs)
     (λ _, attrs_only (G_ (self w)) w)
     (λ _, attrs_only (G_ (self w)) w) w.
Proof.
  unfold annotate_graph.
  apply wp_bind, wp_getattr. destruct (G_ (self w)) as [lG|] eqn:HG;
    [|apply attrs_only_refl].
  apply wp_mutate. destruct (store w !! lG) as [g|] eqn:Hl;
    [|apply attrs_only_refl].
  eapply attrs_only_mutate; [apply attrs_only_refl|done|].
  apply graph_update_shape.
Qed.

Lemma wp_after {T} (m : Py T) (I : world → Prop) w :
  wp m (λ _, I) (λ _, I) w → I (after m w).
Proof. unfold wp, after. by destruct (m w) as [[x|e] w']. Qed.

(** C7.  An annotation call, whether it returns or raises, leaves the
    instance as it was, [adj_], [map_], [tcm_] and [mixtures_] included.
    In the store only the annotated graph can differ ([G_], or [G_data_]
    for [annotate_members]), and only in its attribute dicts: the nodes,
    the edges and the kind of every graph are the same. *)
Theorem annotations_keep_matrices :
  (∀ kwargs w,
     let w' := after (annotate_nodes kwargs) w in
     attrs_only (G_ (self w)) w w' ∧
     adj_ (self w') = adj_ (self w) ∧ map_ (self w') = map_ (self w) ∧
     tcm_ (self w') = tcm_ (self w) ∧
     mixtures_ (self w') = mixtures_ (self w)) ∧
  (∀ kwargs w,
     let w' := after (annotate_members kwargs) w in
     attrs_only (G_data_graph (self w)) w w' ∧
     adj_ (self w') = adj_ (self w) ∧ map_ (self w') = map_ (self w) ∧
     tcm_ (self w') = tcm_ (self w) ∧
     mixtures_ (self w') = mixtures_ (self w)) ∧
  (∀ kwargs w,
     let w' := after (annotate_graph kwargs) w in
     attrs_only (G_ (self w)) w w' ∧
     adj_ (self w') = adj_ (self w) ∧ map_ (self w') = map_ (self w) ∧
     tcm_ (self w') = tcm_ (self w) ∧
     mixtures_ (self w') = mixtures_ (self w)).
Proof.
  split_and!; intros kwargs w w'.
  - assert (attrs_only (G_ (self w)) w w') as Hw'.
    { apply (wp_after _ (attrs_only _ w)), annotate_nodes_wp. }
    destruct Hw' as [Hs ?]. by rewrite Hs.
  - assert (attrs_only (G_data_graph (self w)) w w') as Hw'.
    { apply (wp_after _ (attrs_only _ w)), annotate_members_wp. }
    destruct Hw' as [Hs ?]. by rewrite Hs.
  - assert (attrs_only (G_ (self w)) w w') as Hw'.
    { apply (wp_after _ (attrs_only _ w)), annotate_graph_wp. }
    destruct Hw' as [Hs ?]. by rewrite Hs.
Qed.

Lemma dict_get_None n items : n ∉ items.*1 → dict_get n items = None.
Proof.
  induction items as [|[k v] items IH]; [done|]. simpl.
  intros [Hne Hn]%not_elem_of_cons. case_decide; [congruence|]. by apply IH.
Qed.

Lemma foldl_set_node_attr name items nds :
  NoDup items.*1 →
  foldl (set_node_attr name) nds items =
    (λ na : node * gmap string pyval,
       (na.1, match dict_get na.1 items with
              | Some v => <[name := v]> na.2
              | None => na.2
              end)) <$> nds.
Proof.
  revert nds. induction items as [|[k v] items IH]; intros nds Hnd; simpl.
  { rewrite <-(list_fmap_id nds) at 1. apply list_fmap_ext. by intros i []. }
  apply NoDup_cons in Hnd as [Hk Hnd]. rewrite IH by done.
  unfold set_node_attr. rewrite <-list_fmap_compose.
  apply list_fmap_ext. intros i [n a] _. simpl.
  destruct (decide (n = k)) as [->|Hne]; simpl.
  - rewrite decide_True by done. by rewrite dict_get_None.
  - by rewrite decide_False by done.
Qed.

Lemma dict_get_zip keys vs i n :
  NoDup keys → keys !! i = Some n → dict_get n (zip keys vs) = vs !! i.
Proof.
  revert vs i. induction keys as [|k keys IH]; intros vs i Hnd Hi; [done|].
  apply NoDup_cons in Hnd as [Hk Hnd].
  destruct vs as [|v vs]; [done|]. simpl.
  destruct i as [|i]; simplify_eq/=.
  - by rewrite decide_True.
  - rewrite decide_False; [by apply IH|].
    intros ->. apply Hk. by eapply list_elem_of_lookup_2.
Qed.

Lemma NoDup_fst_zip {X Y} (keys : list X) (vs : list Y) :
  NoDup keys → NoDup (zip keys vs).*1.
Proof.
  intros Hnd. revert vs. induction Hnd as [|k keys Hk Hnd IH]; intros vs.
  { constructor. }
  destruct vs as [|v vs]; simpl; [constructor|].
  constructor; [|apply IH].
  intros Hin. apply Hk. apply list_elem_of_fmap in Hin as ([k' v'] & -> & Hin).
  apply elem_of_zip_l in Hin. done.
Qed.

Lemma node_values_container c vs w :
  container_items c = Some vs → node_values c w = (Ok vs, w).
Proof.
  destruct c as [l|v|v]; simpl; [by intros [= ->]|done|].
  destruct v; simpl; try done; by intros [= ->].
Qed.

Lemma nodes_after_zip name g vs i n a :
  NoDup (nodes g).*1 → nodes g !! i = Some (n, a) →
  nodes (set_node_attributes g (zip (nodes g).*1 vs) name) !! i
    = Some (n, match vs !! i with
               | Some v => <[name := v]> a
               | None => a
               end).
Proof.
  intros Hnd Hi. simpl.
  rewrite foldl_set_node_attr by by apply NoDup_fst_zip.
  rewrite list_lookup_fmap, Hi. simpl.
  by rewrite (dict_get_zip _ _ i) by (by rewrite ?list_lookup_fmap, ?Hi).
Qed.

Lemma updated_attrs_lookup {T} (val : T → option pyval) items a :
  (NoDup items.*1 → ∀ name x, (name, x) ∈ items →
     updated_attrs val items a !! name
       = match val x with Some v => Some v | None => a !! name end) ∧
  (∀ name, name ∉ items.*1 → updated_attrs val items a !! name = a !! name).
Proof.
  unfold updated_attrs.
  assert (∀ items (a : gmap string pyval) name, name ∉ items.*1 →
    foldl (λ a (kv : string * T),
             match val kv.2 with Some v => <[kv.1 := v]> a | None => a end)
          a items !! name = a !! name) as Hnotin.
  { clear. intros items. induction items as [|[k x] items IH]; intros a name Hn;
      [done|].
    simpl in *. apply not_elem_of_cons in Hn as [Hne Hn]. rewrite IH by done.
    destruct (val x); [by rewrite lookup_insert_ne|done]. }
  split; [|by apply Hnotin].
  revert a. induction items as [|[k x] items IH]; intros a Hnd name y Hin.
  { by apply elem_of_nil in Hin. }
  simpl in *. apply NoDup_cons in Hnd as [Hk Hnd].
  apply elem_of_cons in Hin as [[= -> ->]|Hin].
  - rewrite Hnotin by done. destruct (val x); [apply lookup_insert_eq|done].
  - rewrite (IH _ Hnd _ _ Hin).
    assert (name ≠ k) as Hne.
    { intros ->. apply Hk. apply list_elem_of_fmap. by exists (k, y). }
    destruct (val y); [done|].
    destruct (val x); [by rewrite lookup_insert_ne|done].
Qed.

Lemma keyword_items_is_Some n c :
  (∀ v, c ≠ ValArray0 v) → is_Some (keyword_items n c).
Proof.
  intros Hc. destruct c as [l|v|v]; [by eexists|by destruct (Hc v)|].
  destruct v; by eexists.
Qed.

Lemma node_values_items w lG g c vs :
  G_ (self w) = Some lG → store w !! lG = Some g →
  keyword_items (length (nodes g)) c = Some vs →
  node_values c w = (Ok vs, w).
Proof.
  intros HG Hl. destruct c as [l|v|v]; simpl; [by intros [= ->]|done|].
  destruct v; simpl; intros [= <-]; try done;
    unfold mbind, Py_bind, getattr, deref; by rewrite HG, Hl.
Qed.

Lemma annotated_shape n g kwargs :
  (nodes (annotated n g kwargs)).*1 = (nodes g).*1 ∧
  edges (annotated n g kwargs) = edges g ∧
  graph (annotated n g kwargs) = graph g.
Proof.
  unfold annotated. revert g.
  induction kwargs as [|kv kwargs IH]; intros g; [done|]. simpl.
  destruct (IH (set_node_attributes g
                  (zip (nodes g).*1 (default [] (keyword_items n kv.2))) kv.1))
    as (Hn & He & Hg).
  split_and!; [|done..]. rewrite Hn. simpl. apply foldl_set_node_attr_keys.
Qed.

Lemma annotate_nodes_annotated lG kwargs w g :
  G_ (self w) = Some lG → store w !! lG = Some g →
  Forall (λ kv : string * values_arg, ∀ v, kv.2 ≠ ValArray0 v) kwargs →
  annotate_nodes kwargs w
    = (Ok (), {| store := <[lG := annotated (length (nodes g)) g kwargs]>
                            (store w);
                 self := self w |}).
Proof.
  intros HG Hl Hkw. revert w g HG Hl.
  induction Hkw as [|[name c] kwargs Hc _ IH]; intros w g HG Hl.
  { unfold annotate_nodes, annotated. simpl.
    rewrite insert_id by done. by destruct w. }
  destruct (keyword_items_is_Some (length (nodes g)) c Hc) as [vs Hvs].
  unfold annotate_nodes in *. simpl.
  unfold mbind at 1, Py_bind. unfold mbind at 1, Py_bind.
  rewrite (node_values_items _ lG g _ vs) by done.
  unfold mbind at 1, Py_bind, getattr. rewrite HG.
  unfold mbind at 1, Py_bind, deref. rewrite Hl.
  unfold mutate. rewrite Hl.
  set (g1 := set_node_attributes g (zip (nodes g).*1 vs) name).
  assert (length (nodes g1) = length (nodes g)) as Hlen.
  { rewrite <-(length_fmap fst (nodes g1)), <-(length_fmap fst (nodes g)).
    f_equal. apply foldl_set_node_attr_keys. }
  rewrite (IH _ g1) by (done || apply lookup_insert_eq).
  cbn [store self]. rewrite insert_insert_eq, Hlen.
  unfold annotated. cbn [foldl snd fst]. by rewrite Hvs.
Qed.

Lemma annotated_nodes m kwargs g i n a :
  NoDup (nodes g).*1 → nodes g !! i = Some (n, a) →
  nodes (annotated m g kwargs) !! i
    = Some (n, updated_attrs (λ c, keyword_items m c ≫= (.!! i)) kwargs a).
Proof.
  unfold annotated, updated_attrs. revert g a.
  induction kwargs as [|[name c] kwargs IH]; intros g a Hnd Hi; [done|].
  simpl. apply IH.
  - simpl. by rewrite foldl_set_node_attr_keys.
  - rewrite (nodes_after_zip _ _ _ _ n a) by done. f_equal. f_equal.
    by destruct (keyword_items m c) as [vs|].
Qed.

(** C8.  On an instance whose [G_] is a graph, a call of
    [annotate_nodes] with any keywords, none of them a zero-dimensional
    array, does not raise, whatever the lengths of the values, and
    changes the attribute dicts of the nodes of that graph only.  Every
    keyword is applied: its values, whether a list, a dict (its keys),
    an array or a plain value (once per node), are cut off by [zip] at
    the shorter side.  Under the name of each keyword the node in
    position [i] has item [i] when the container has one, and from
    position [k] on, [k] the length of the container, the node has under
    that name what it had before the call: a node without the attribute
    stays without it.  Attributes that no keyword names are as before.
    The nodes of a graph and the keywords of a call are each named
    once. *)
Theorem annotate_nodes_short_container kwargs w lG g :
  G_ (self w) = Some lG → store w !! lG = Some g →
  Forall (λ kv : string * values_arg, ∀ v, kv.2 ≠ ValArray0 v) kwargs →
  ∃ g',
    annotate_nodes kwargs w
      = (Ok (), {| store := <[lG := g']> (store w); self := self w |}) ∧
    ((nodes g').*1 = (nodes g).*1 ∧ edges g' = edges g ∧
     graph g' = graph g) ∧
    (NoDup (nodes g).*1 → NoDup kwargs.*1 →
     ∀ i n a, nodes g !! i = Some (n, a) →
       ∃ a', nodes g' !! i = Some (n, a') ∧
         (∀ name c vs,
            (name, c) ∈ kwargs →
            keyword_items (length (nodes g)) c = Some vs →
            (∀ v, vs !! i = Some v → a' !! name = Some v) ∧
            ((length vs ≤ i)%nat →
               a' !! name = a !! name ∧
               (a !! name = None → a' !! name = None))) ∧
         (∀ name, name ∉ kwargs.*1 → a' !! name = a !! name)).
Proof.
  intros HG Hl Hkw.
  exists (annotated (length (nodes g)) g kwargs). split_and!.
  - by apply annotate_nodes_annotated.
  - apply annotated_shape.
  - apply annotated_shape.
  - apply annotated_shape.
  - intros Hnd Hnames i n a Hi.
    eexists. split; [by apply annotated_nodes|].
    destruct (updated_attrs_lookup
                (λ c, keyword_items (length (nodes g)) c ≫= (.!! i)) kwargs a)
      as [Hin Hnotin].
    split; [|done].
    intros name c vs Hc Hvs. rewrite (Hin Hnames _ _ Hc), Hvs. simpl. split.
    + by intros v ->.
    + intros Hge. rewrite (lookup_ge_None_2 vs i) by done.
      split; [done|]. by intros ->.
Qed.

(** ** The attribute [G_inverse_] *)

Lemma inverse_transform_eq `{!Tools} g y w :
  inverse_transform g y w =
    (match G_inverse_ (self w) with
     | Some v => Ok v
     | None => Err AttributeError
     end, w).
Proof. unfold inverse_transform, getattr. by destruct (G_inverse_ (self w)). Qed.

Section G_inverse.
Context `{!Tools, !Visuals}.

Lemma init_G_inverse_ params w :
  G_inverse_ (self (after (__init__ params) w)) = None.
Proof.
  unfold after, __init__.
  pose proof (fit_wp (foldl bind_param fit_defaults params)
    {| store := store w;
       self := blank (list_to_map (param_item <$> params)) |}) as Hwp.
  unfold wp in Hwp. destruct (fit _ _) as [[[]|e] w']; simpl.
  - destruct Hwp as (_ & d & ids & data_ids & g & amt & lG & gd & Hfit).
    by destruct Hfit as (_ & _ & _ & _ & _ & _ & ->).
  - by destruct Hwp as [_ ->].
Qed.

Lemma fit_G_inverse_ a w :
  G_inverse_ (self (after (fit a) w)) = G_inverse_ (self w).
Proof.
  unfold after. pose proof (fit_wp a w) as Hwp.
  unfold wp in Hwp. destruct (fit _ _) as [[[]|e] w']; simpl.
  - destruct Hwp as (_ & d & ids & data_ids & g & amt & lG & gd & Hfit).
    by destruct Hfit as (_ & _ & _ & _ & _ & _ & ->).
  - by destruct Hwp as [_ ->].
Qed.

Lemma visualize_G_inverse_ p j c d t kwargs w :
  G_inverse_ (self (after (visualize p j c d t kwargs) w))
    = G_inverse_ (self w).
Proof.
  set (I := λ w' : world, G_inverse_ (self w') = G_inverse_ (self w)).
  apply (wp_after _ I). unfold visualize.
  assert (∀ l f w', I w' → wp (mutate l f) (λ _, I) (λ _, I) w') as Hmut.
  { intros l f w' Hw'. apply wp_mutate. by destruct (store w' !! l). }
  assert (∀ (fld : DyNeuGraph → option loc) w',
    I w' → wp (getattr fld ≫= λ l, mutate l (graph_update [("color", c)]))
              (λ _, I) (λ _, I) w') as Hcol.
  { intros fld w' Hw'. apply wp_bind, wp_getattr.
    destruct (fld (self w')); [by apply Hmut|done]. }
  apply wp_bind.
  eapply (wp_mono _ (λ _, I) _ (λ _, I)); [|simpl|done].
  { destruct c; try done;
      (apply wp_bind, wp_getattr; destruct (G (self w)); [by apply Hmut|done]). }
  intros [] w1 Hw1. apply wp_bind.
  eapply (wp_mono _ (λ _, I) _ (λ _, I)); [|simpl|done].
  { destruct d as [| | | | |dd]; try done. unfold annotate_graph.
    apply wp_bind, wp_getattr.
    destruct (G_ (self w1)); [by apply Hmut|done]. }
  intros [] w2 Hw2.
  apply wp_bind, wp_getattr. destruct (G (self w2)) as [l|]; [|done].
  apply wp_bind, wp_deref. destruct (store w2 !! l) as [g|]; [|done].
  apply wp_bind, wp_modify_self.
  apply wp_bind.
  eapply (wp_mono _ (λ _, I) _ (λ _, I)); [|simpl|done].
  { destruct t; [|done]. apply wp_bind, wp_getattr. simpl.
    destruct (tcm_ (self w2)); [|done].
    apply wp_bind, wp_lift. by destruct (plot_temporal_matrix _ _). }
  intros [] w3 Hw3.
  apply wp_bind, wp_getattr. destruct (node_link_data_ (self w3)); [|done].
  apply wp_bind, wp_lift. destruct (visualize_force _ _ _); [|done].
  by apply wp_modify_self.
Qed.

Lemma run_G_inverse_ c w :
  G_inverse_ (self (run c w)) = G_inverse_ (self w).
Proof.
  destruct c; simpl.
  - unfold after, cache. by destruct args.
  - apply fit_G_inverse_.
  - unfold after. by rewrite inverse_transform_eq.
  - unfold after, fit_transform, mbind, Py_bind.
    pose proof (fit_G_inverse_ {| a_G := g; a_X := a_X fit_defaults; a_y := y;
      a_node_data := a_node_data fit_defaults;
      a_edge_data := a_edge_data fit_defaults;
      a_G_data := a_G_data fit_defaults; a_kwargs := [] |} w) as Hfit.
    unfold after in Hfit. destruct (fit _ w) as [[[]|e] w']; [|done].
    unfold getattr. by destruct (tcm_ (self w')).
  - done.
  - unfold after. by rewrite transform_eq.
  - set (I := λ w' : world, G_inverse_ (self w') = G_inverse_ (self w)).
    apply (wp_after _ I). unfold annotate.
    apply wp_bind, wp_getattr. destruct (G_ (self w)) as [l|]; [|done].
    apply wp_bind, wp_deref. destruct (store w !! l) as [g|]; [|done].
    apply wp_bind, wp_lift. destruct (visuals_annotate g kwargs); [|done].
    apply wp_bind, wp_alloc. intros l' _. by apply wp_modify_self.
  - pose proof (wp_after _ _ _ (annotate_nodes_wp kwargs w)) as [Hs _].
    by rewrite Hs.
  - pose proof (wp_after _ _ _ (annotate_members_wp kwargs w)) as [Hs _].
    by rewrite Hs.
  - pose proof (wp_after _ _ _ (annotate_graph_wp kwargs w)) as [Hs _].
    by rewrite Hs.
  - apply visualize_G_inverse_.
Qed.

(** C9.  No method assigns [G_inverse_]: on an instance made by the
    constructor and used through the methods of the class, in any order
    and whether they return or raise, the attribute is unset, and
    [inverse_transform] raises [AttributeError]. *)
Theorem inverse_transform_raises w :
  reachable w →
  G_inverse_ (self w) = None ∧
  ∀ g y, inverse_transform g y w = (Err AttributeError, w).
Proof.
  intros Hw.
  assert (G_inverse_ (self w) = None) as Hnone.
  { induction Hw as [params w|c w _ IH|h w _ IH].
    - apply init_G_inverse_.
    - by rewrite run_G_inverse_.
    - done. }
  split; [done|]. intros g y. by rewrite inverse_transform_eq, Hnone.
Qed.
End G_inverse.

(** ** The statements at sample inputs *)

Lemma transform_raises_witness :
  G_ (self fitted_world) = Some 1%positive ∧
  @transform spec_tools PyNone (LVal PyNone) fitted_world
    = (Err UnboundLocalError, fitted_world).
Proof.
  split; [reflexivity|].
  eapply (proj2 (@transform_raises spec_tools) PyNone (LVal PyNone)
            fitted_world 1%positive two_nodes_graph);
    vm_compute; reflexivity.
Defined.

(** C2, the claim as stated fails: a graph in node-link form makes
    [fit] raise before the processing stage, and by then [G_input_] no
    longer holds the graph of the last successful call. *)
Lemma fit_failure_overwrites_inputs :
  let a := fit_with (GDict node_link_form) (LVal PyNone) in
  let w' := after (@fit spec_tools a) fitted_world in
  (∃ e, (@fit spec_tools a fitted_world).1 = Err e) ∧
  G_input_ (self fitted_world) = Some (GDict two_nodes) ∧
  G_input_ (self w') = Some (GDict node_link_form) ∧
  G_input_ (self w') ≠ G_input_ (self fitted_world).
Proof.
  intros a w'.
  assert (G_input_ (self w') = Some (GDict node_link_form)) as Hnew
    by reflexivity.
  assert (G_input_ (self fitted_world) = Some (GDict two_nodes)) as Hold
    by reflexivity.
  split_and!; [by eexists|exact Hold|exact Hnew|].
  rewrite Hnew, Hold. intros [=].
Qed.

Lemma fit_failure_keeps_derived_state_witness :
  let a := fit_with (GDict node_link_form) (LVal PyNone) in
  let w' := after (@fit spec_tools a) fitted_world in
  @fit spec_tools a fitted_world = (Err TypeError, w') ∧
  tcm_ (self w') = tcm_ (self fitted_world) ∧
  mixtures_ (self w') = mixtures_ (self fitted_world).
Proof.
  intros a w'.
  assert (@fit spec_tools a fitted_world = (Err TypeError, w')) as Hfit
    by reflexivity.
  split; [exact Hfit|].
  pose proof (fit_failure_keeps_derived_state a fitted_world TypeError w' Hfit)
    as (_ & _ & Hderived & _).
  split; apply Hderived.
Defined.

(** C3, the claim as stated fails: for a data frame whose rows are
    labelled 10, 20, 30 the stored time indices are 0, 1, 2, not the
    labels of the frame. *)
Lemma fit_frame_labels_not_used :
  let a := fit_with (GDict two_nodes) (LFrame frame_10_20_30) in
  let w' := after (@fit spec_tools a) new_world in
  (@fit spec_tools a new_world).1 = Ok () ∧
  int_labels (df_index frame_10_20_30) = Some [10; 20; 30] ∧
  data_ids_ (self w') = Some [0; 1; 2] ∧
  data_ids_ (self w') ≠ int_labels (df_index frame_10_20_30).
Proof.
  intros a w'.
  assert (data_ids_ (self w') = Some [0; 1; 2]) as Hids by reflexivity.
  split_and!; [reflexivity|reflexivity|exact Hids|].
  rewrite Hids. intros [=].
Qed.

Lemma fit_data_ids_witness :
  let a := fit_with (GDict two_nodes) (LFrame frame_10_20_30) in
  let w' := after (@fit spec_tools a) new_world in
  let b := fit_with (GDict two_nodes) (LVal PyNone) in
  let v' := after (@fit spec_tools b) new_world in
  (@fit spec_tools a new_world = (Ok (), w') ∧
   ∃ ids, data_ids_ (self w') = Some ids ∧ ids = np_arange 3) ∧
  (@fit spec_tools b new_world = (Ok (), v') ∧
   Forall (Forall int64) [[0; 1; 2]; [2; 3]] ∧
   ∃ ids, data_ids_ (self v') = Some ids ∧
     StronglySorted Z.le ids ∧ NoDup ids ∧
     ∀ t, t ∈ ids ↔ ∃ ms, ms ∈ [[0; 1; 2]; [2; 3]] ∧ t ∈ ms).
Proof.
  intros a w' b v'.
  assert (@fit spec_tools a new_world = (Ok (), w')) as Hfit by reflexivity.
  assert (@fit spec_tools b new_world = (Ok (), v')) as Hfit' by reflexivity.
  assert (Forall (Forall int64) [[0; 1; 2]; [2; 3]]) as Hbound
    by (repeat constructor; unfold int64; lia).
  split; [split; [exact Hfit|]|split; [exact Hfit'|split; [exact Hbound|]]].
  - exact (fit_data_ids a new_world w' Hfit).
  - destruct (fit_data_ids b new_world v' Hfit') as (ids & Hids & Hspec).
    exists ids. split; [exact Hids|]. exact (Hspec Hbound).
Defined.

Lemma mixtures_are_nonzero_columns_witness :
  mixtures_of [[1; 1; 1; 0]; [1; 1; 1; 0]; [1; 1; 2; 1]; [0; 0; 1; 1]] !! 3%nat
    = Some [2%nat; 3%nat] ∧
  ∃ mix,
    mixtures_of [[1; 1; 1; 0]; [1; 1; 1; 0]; [1; 1; 2; 1]; [0; 0; 1; 1]] !! 3%nat
      = Some mix ∧
    StronglySorted lt mix ∧
    ∀ t', t' ∈ mix ↔ ∃ v, [0; 0; 1; 1] !! t' = Some v ∧ v ≠ 0.
Proof.
  split; [reflexivity|].
  apply (proj2 (proj1 (@mixtures_are_nonzero_columns spec_tools) _) 3%nat).
  reflexivity.
Defined.

Lemma canonical_has_nodes_and_links_witness :
  canonical (GDict empty_dict) new_world = (Ok skeleton, new_world) ∧
  has_key "nodes" skeleton = true ∧ has_key "links" skeleton = true ∧
  is_Ok (getitem_nodes skeleton).
Proof.
  assert (canonical (GDict empty_dict) new_world = (Ok skeleton, new_world))
    as Hc by reflexivity.
  split; [exact Hc|].
  exact (proj1 (canonical_has_nodes_and_links spec_tools) _ _ _ _ Hc).
Defined.

Lemma fit_keeps_callers_graph_witness :
  store caller_world !! 1%positive = Some two_nodes_graph ∧
  store (after (@fit spec_tools (fit_with (GGraph 1) (LVal PyNone)))
           caller_world) !! 1%positive = Some two_nodes_graph.
Proof.
  assert (store caller_world !! 1%positive = Some two_nodes_graph) as Hl
    by reflexivity.
  split; [exact Hl|].
  exact (proj2 (fit_keeps_callers_graph spec_tools
                  (fit_with (GGraph 1) (LVal PyNone)) caller_world
                  1%positive two_nodes_graph eq_refl Hl)).
Defined.

Lemma annotate_nodes_short_container_witness :
  let kwargs := [("color", ValObj (PyList [PyStr "blue"]));
                 ("size", ValArray [PyInt 3])] in
  G_ (self fitted_world) = Some 1%positive ∧
  store fitted_world !! 1%positive = Some two_nodes_graph ∧
  ∃ g',
    annotate_nodes kwargs fitted_world
      = (Ok (), {| store := <[1%positive := g']> (store fitted_world);
                   self := self fitted_world |}) ∧
    (∃ a', nodes g' !! 0%nat = Some (NStr "a", a') ∧
           a' !! "color" = Some (PyStr "blue") ∧
           a' !! "size" = Some (PyInt 3)) ∧
    (∃ b', nodes g' !! 1%nat = Some (NStr "b", b') ∧
           b' !! "color" = None ∧ b' !! "size" = None).
Proof.
  intros kwargs.
  assert (G_ (self fitted_world) = Some 1%positive) as HG by reflexivity.
  assert (store fitted_world !! 1%positive = Some two_nodes_graph) as Hl
    by reflexivity.
  split; [exact HG|]. split; [exact Hl|].
  assert (NoDup (nodes two_nodes_graph).*1) as Hnd.
  { apply (bool_decide_unpack _). vm_compute. exact I. }
  assert (NoDup kwargs.*1) as Hnames.
  { apply (bool_decide_unpack _). vm_compute. exact I. }
  assert (Forall (λ kv : string * values_arg, ∀ v, kv.2 ≠ ValArray0 v) kwargs)
    as Hkw by (repeat constructor; discriminate).
  destruct (annotate_nodes_short_container kwargs fitted_world 1%positive
              two_nodes_graph HG Hl Hkw)
    as (g' & Hrun & _ & Hnodes).
  specialize (Hnodes Hnd Hnames).
  exists g'. split; [exact Hrun|]. split.
  - destruct (Hnodes 0%nat (NStr "a") _ eq_refl) as (a' & Ha' & Hin & _).
    exists a'. split; [exact Ha'|]. split.
    + apply (proj1 (Hin "color" _ [PyStr "blue"] (list_elem_of_here _ _)
                      eq_refl)). reflexivity.
    + apply (proj1 (Hin "size" _ [PyInt 3]
                      (list_elem_of_further _ _ _ (list_elem_of_here _ _))
                      eq_refl)). reflexivity.
  - destruct (Hnodes 1%nat (NStr "b") _ eq_refl) as (b' & Hb' & Hin & _).
    exists b'. split; [exact Hb'|]. split.
    + apply (proj2 (Hin "color" _ [PyStr "blue"] (list_elem_of_here _ _)
                      eq_refl)); [simpl; lia|reflexivity].
    + apply (proj2 (Hin "size" _ [PyInt 3]
                      (list_elem_of_further _ _ _ (list_elem_of_here _ _))
                      eq_refl)); [simpl; lia|reflexivity].
Defined.

Lemma inverse_transform_raises_witness :
  let w := after (@__init__ spec_tools []) new_world in
  @reachable spec_tools spec_visuals w ∧
  inverse_transform GNone (LVal PyNone) w = (Err AttributeError, w).
Proof.
  intros w.
  assert (@reachable spec_tools spec_visuals w) as Hw by apply reach_init.
  split; [exact Hw|].
  exact (proj2 (@inverse_transform_raises spec_tools spec_visuals w Hw)
           GNone (LVal PyNone)).
Defined.

Lemma cache_updates_or_looks_up_witness :
  let w := after (cache [] [("a", ArgVal PyNone); ("b", ArgVal (PyInt 7))])
                 new_world in
  cache_ (self w) !! "b" = Some (ArgVal (PyInt 7)) ∧
  cache ["z"; "a"; "b"] [] w = (Ok (Value (ArgVal (PyInt 7))), w).
Proof.
  intros w.
  assert (cache_ (self w) !! "b" = Some (ArgVal (PyInt 7))) as Hb
    by reflexivity.
  split; [exact Hb|].
  apply (proj1 (proj2 cache_updates_or_looks_up) ["z"; "a"] "b" [] []
           w (ArgVal (PyInt 7))); [|exact Hb|reflexivity].
  repeat constructor.
Defined.

(** ** The two-node scenario, run *)

Example fit_two_nodes :
  let w := after (@fit spec_tools (fit_with (GDict two_nodes) (LVal PyNone)))
                 new_world in
  store w !! 1%positive = Some two_nodes_graph ∧
  node_ids_ (self w) = Some ["a"; "b"] ∧
  data_ids_ (self w) = Some [0; 1; 2; 3] ∧
  adj_ (self w) = Some [[0; 1]; [1; 0]] ∧
  map_ (self w) = Some [[1; 0]; [1; 0]; [1; 1]; [0; 1]] ∧
  tcm_ (self w) = Some [[1; 1; 1; 0]; [1; 1; 1; 0]; [1; 1; 2; 1]; [0; 0; 1; 1]] ∧
  mixtures_ (self w)
    = Some [[0; 1; 2]; [0; 1; 2]; [0; 1; 2; 3]; [2; 3]]%nat.
Proof. repeat split. Qed.

Example fit_graph_object_raises :
  ∃ e, (@fit spec_tools (fit_with (GGraph 1) (LVal PyNone)) caller_world).1
         = Err e.
Proof. by eexists. Qed.

(** * Further properties *)

(** ** What [fit] leaves behind *)

Lemma wp_alloc_fresh g (Q : loc → world → Prop) E w :
  Q (fresh (dom (store w)))
    {| store := <[fresh (dom (store w)) := g]> (store w); self := self w |} →
  wp (alloc g) Q E w.
Proof. done. Qed.

Lemma for_each_node_attrs lG items w g :
  store w !! lG = Some g →
  for_each (λ kv : string * list (node * pyval),
              mutate lG (λ g, set_node_attributes g kv.2 kv.1)) items w
    = (Ok (), {| store := <[lG := set_all_node_attributes g items]> (store w);
                 self := self w |}).
Proof.
  revert w g. induction items as [|kv items IH]; intros w g Hl; simpl.
  { rewrite insert_id by done. by destruct w. }
  unfold mbind, Py_bind, mutate. rewrite Hl.
  erewrite IH by apply lookup_insert_eq. simpl.
  by rewrite insert_insert_eq.
Qed.

Lemma for_each_edge_attrs lG items w g :
  store w !! lG = Some g →
  match set_all_edge_attributes g items with
  | Ok g' =>
      for_each (λ kv : string * list (node * node * pyval),
                  g ← deref lG;
                  g' ← lift (set_edge_attributes g kv.2 kv.1);
                  mutate lG (λ _, g')) items w
        = (Ok (), {| store := <[lG := g']> (store w); self := self w |})
  | Err e =>
      (for_each (λ kv : string * list (node * node * pyval),
                   g ← deref lG;
                   g' ← lift (set_edge_attributes g kv.2 kv.1);
                   mutate lG (λ _, g')) items w).1 = Err e
  end.
Proof.
  revert w g. induction items as [|kv items IH]; intros w g Hl; simpl.
  { rewrite insert_id by done. by destruct w. }
  unfold mbind at 1, result_bind.
  destruct (set_edge_attributes g kv.2 kv.1) as [g1|e] eqn:Hg1.
  - specialize (IH {| store := <[lG := g1]> (store w); self := self w |} g1
                   (lookup_insert_eq _ _ _)).
    unfold mbind, Py_bind, deref, lift, mutate in *. rewrite Hl, Hg1, Hl.
    destruct (set_all_edge_attributes g1 items) as [g'|e].
    + rewrite IH. simpl. by rewrite insert_insert_eq.
    + simpl in *. by destruct (for_each _ _ _) as [[[]|e'] w'].
  - unfold mbind, Py_bind, deref, lift. by rewrite Hl, Hg1.
Qed.

Section fit_world_steps.
Context `{!Tools}.

Lemma fit_full_wp a w :
  wp (fit a) (λ _ w', fit_returns a w w') (λ _ _, True) w.
Proof.
  unfold fit, fit_returns.
  apply wp_bind, wp_modify_self. apply wp_bind.
  destruct (a_G a) as [|l|d0] eqn:HG.
  2:{ eapply wp_mono; [apply canonical_wp| |done].
      simpl. intros d w1 (_ & _ & Hd).
      destruct (store w !! l) as [g0|]; [|done]. injection Hd as <-.
      apply wp_bind, wp_lift. unfold graph_ids. simpl. by case_decide. }
  all: unfold canonical; apply wp_ret;
    apply wp_bind, wp_lift;
    destruct (graph_ids _) as [ids|e] eqn:Hids; [|done];
    apply wp_bind, wp_lift;
    destruct (label_ids (a_y a) ids.2) as [data_ids|e] eqn:Hdata; [|done];
    apply wp_bind, wp_lift;
    destruct (process_graph _ (a_y a) (a_kwargs a)) as [g|e] eqn:Hg; [|done];
    apply wp_bind, wp_alloc_fresh; simpl;
    set (lG := fresh (dom (store w)));
    apply wp_bind, wp_lift;
    destruct (extract_matrices g (Some data_ids)) as [amt|e] eqn:Hamt; [|done];
    apply wp_bind;
    (destruct (a_G_data a) as [[]|lgd] eqn:Hgd; simpl;
     [ apply wp_bind, wp_lift;
       destruct (MultiGraph amt.2) as [gm|e] eqn:Hgm; [|done];
       apply wp_bind, wp_alloc_fresh; simpl;
       set (l := fresh (dom (<[lG := g]> (store w))));
       assert (l ≠ lG) as Hne
         by (intros Heq; pose proof (is_fresh (dom (<[lG := g]> (store w))))
               as Hfresh; fold l in Hfresh; rewrite Heq in Hfresh;
             apply Hfresh, elem_of_dom; rewrite lookup_insert_eq; by eexists);
       apply wp_bind, wp_lift;
       destruct (label_iter (a_y a)) as [ys|e] eqn:Hys; [|done];
       apply wp_bind, wp_mutate; simpl; rewrite lookup_insert_eq;
       apply wp_ret; rewrite insert_insert_eq
     | apply wp_ret | apply wp_ret ]).
  all: apply wp_bind; unfold wp at 1;
    (rewrite (for_each_node_attrs lG _ _ g)
       by (simpl; rewrite ?lookup_insert_ne by done; apply lookup_insert_eq));
    simpl; apply wp_bind; unfold wp at 1;
    match goal with
    | |- context [for_each _ ?items ?w1] =>
        pose proof (for_each_edge_attrs lG items w1
          (set_all_node_attributes g (default [] (a_node_data a)))
          (lookup_insert_eq _ _ _)) as Hedges
    end;
    destruct (set_all_edge_attributes _ _) as [gfin|e] eqn:Hfin.
  all: try (by destruct (for_each _ _ _) as [[[]|e'] w1]; simplify_eq/=).
  all: rewrite Hedges; simpl; apply wp_modify_self; simpl;
    eexists; exists ids, data_ids, g, amt, gfin.
  all: split_and!; [done..|].
  all: rewrite !insert_insert_eq; eauto.
Qed.
End fit_world_steps.

Lemma canonical_dict_graph_ids h l d :
  canonical_dict h (GGraph l) = Some d →
  graph_ids d = Err TypeError ∨ graph_ids d = Err AttributeError.
Proof.
  simpl. destruct (h !! l) as [g|]; [|done]. intros [= <-].
  unfold graph_ids. simpl. case_decide; auto.
Qed.

Lemma canonical_dict_store h h' g d ids :
  canonical_dict h g = Some d → graph_ids d = Ok ids →
  canonical_dict h' g = Some d.
Proof.
  destruct g as [|l|d0]; [done| |done].
  intros Hd Hids. apply canonical_dict_graph_ids in Hd as [Hd|Hd]; congruence.
Qed.

Global Instance str_le_total : Total str_le.
Proof. intros a b. apply String.leb_total. Qed.

Lemma np_unique_str_spec l :
  Sorted str_le (np_unique_str l) ∧ NoDup (np_unique_str l) ∧
  ∀ k, k ∈ np_unique_str l ↔ ∃ k', k' ∈ l ∧ k = strip_nul k'.
Proof.
  unfold np_unique_str. split_and!.
  - apply (Sorted_merge_sort str_le).
  - rewrite merge_sort_Permutation. apply NoDup_remove_dups.
  - intros k. rewrite merge_sort_Permutation, elem_of_remove_dups.
    rewrite list_elem_of_fmap. split; intros (k' & ? & ?); by exists k'.
Qed.

Example np_unique_str_drops_nul :
  np_unique_str ["b"; "a" +:+ String Ascii.zero EmptyString; "a"]
    = ["a"; "b"].
Proof. reflexivity. Qed.

Lemma graph_ids_keys h g d ids :
  canonical_dict h g = Some d → graph_ids d = Ok ids →
  ids.1 = np_unique_str (input_node_keys g).
Proof.
  unfold graph_ids, getitem_nodes.
  destruct g as [|l|[[[nd|nl]|] lk ot]]; simpl.
  - by intros [= <-] [= <-].
  - destruct (h !! l) as [g0|]; [|done]. simpl. intros [= <-]. simpl.
    by case_decide.
  - by intros [= <-] [= <-].
  - intros [= <-]. simpl. by case_decide.
  - by intros [= <-] [= <-].
Qed.

Lemma set_all_node_attributes_shape g node_data :
  same_shape g (set_all_node_attributes g node_data) ∧
  graph (set_all_node_attributes g node_data) = graph g ∧
  edges (set_all_node_attributes g node_data) = edges g.
Proof.
  unfold set_all_node_attributes. revert g.
  induction node_data as [|kv node_data IH]; intros g; simpl; [done|].
  destruct (IH (set_node_attributes g kv.2 kv.1)) as (Hs & Hg & He).
  split_and!; [|done..].
  eapply same_shape_trans; [apply set_node_attributes_shape|done].
Qed.

Lemma set_edge_attr_ends name es item :
  (set_edge_attr name es item).*1 = es.*1.
Proof.
  unfold set_edge_attr. rewrite <-list_fmap_compose.
  apply list_fmap_ext. intros i e _. simpl. by case_match.
Qed.

Lemma set_edge_attributes_shape g values name g' :
  set_edge_attributes g values name = Ok g' →
  same_shape g g' ∧ graph g' = graph g ∧ nodes g' = nodes g.
Proof.
  unfold set_edge_attributes. destruct (multigraph g) eqn:Hm.
  - destruct values; [|done]. by intros [= <-].
  - intros [= <-]. split_and!; try done. split_and!; [done| |done]. simpl.
    generalize (edges g). induction values as [|v values IH]; intros es; [done|].
    simpl. by rewrite IH, set_edge_attr_ends.
Qed.

Lemma set_all_edge_attributes_shape g edge_data g' :
  set_all_edge_attributes g edge_data = Ok g' →
  same_shape g g' ∧ graph g' = graph g ∧ nodes g' = nodes g.
Proof.
  revert g. induction edge_data as [|kv edge_data IH]; intros g; simpl.
  { by intros [= <-]. }
  unfold mbind, result_bind.
  destruct (set_edge_attributes g kv.2 kv.1) as [g1|e] eqn:Hg1; [|done].
  intros (Hs & Hg & Hn)%IH.
  apply set_edge_attributes_shape in Hg1 as (Hs1 & Hg1' & Hn1).
  split_and!; [by eapply same_shape_trans|congruence..].
Qed.

Section fit_more.
Context `{!Tools}.

Lemma fit_returns_intro a w w' :
  fit a w = (Ok (), w') → fit_returns a w w'.
Proof.
  intros Hfit. pose proof (fit_full_wp a w) as Hwp.
  unfold wp in Hwp. by rewrite Hfit in Hwp.
Qed.

(** X1.  When [fit] returns, every attribute of the fitted state is
    set: the inputs as given, the six results, and the aliases [G], [A],
    [M], [TCM] equal to [G_], [adj_], [map_], [tcm_].  [G_] names an
    object that did not exist before the call.  The attributes that
    [fit] does not assign ([cache_], [G_inverse_], [mixtures_img_],
    [annotations_], [node_link_data_], [HTTP]) are as they were. *)
Theorem fit_sets_every_result a w w' :
  fit a w = (Ok (), w') →
  (G_input_ (self w') = Some (a_G a) ∧ X_ (self w') = Some (a_X a) ∧
   y_ (self w') = Some (a_y a)) ∧
  (∃ lG g, G_ (self w') = Some lG ∧ store w !! lG = None ∧
           store w' !! lG = Some g) ∧
  (is_Some (G_data_ (self w')) ∧ is_Some (node_ids_ (self w')) ∧
   is_Some (data_ids_ (self w')) ∧ is_Some (adj_ (self w')) ∧
   is_Some (map_ (self w')) ∧ is_Some (tcm_ (self w')) ∧
   is_Some (mixtures_ (self w'))) ∧
  (G (self w') = G_ (self w') ∧ A (self w') = adj_ (self w') ∧
   M (self w') = map_ (self w') ∧ TCM (self w') = tcm_ (self w')) ∧
  (cache_ (self w') = cache_ (self w) ∧
   G_inverse_ (self w') = G_inverse_ (self w) ∧
   mixtures_img_ (self w') = mixtures_img_ (self w) ∧
   annotations_ (self w') = annotations_ (self w) ∧
   node_link_data_ (self w') = node_link_data_ (self w) ∧
   HTTP (self w') = HTTP (self w)).
Proof.
  intros (d & ids & data_ids & g & amt & gfin & _ & _ & _ & _ & _ & _ & Hw')
    %fit_returns_intro.
  assert (store w !! fresh (dom (store w)) = None) as Hfresh.
  { apply not_elem_of_dom, is_fresh. }
  destruct (a_G_data a) as [[]|lgd]; simpl in Hw'.
  - destruct Hw' as (gm & ys & _ & _ & ->). simpl.
    split_and!; try done; eauto.
    eexists _, gfin. split_and!; [done..|]. apply lookup_insert_eq.
  - subst w'. simpl. split_and!; try done; eauto.
    eexists _, gfin. split_and!; [done..|]. apply lookup_insert_eq.
  - subst w'. simpl. split_and!; try done; eauto.
    eexists _, gfin. split_and!; [done..|]. apply lookup_insert_eq.
Qed.

(** X2.  [fit_transform(G, y)] is [fit(G=G, y=y)] with every other
    parameter at its default, followed by reading [tcm_]: it returns
    exactly when that [fit] returns, the value returned is the [tcm_]
    just stored, it raises what [fit] raises, and it leaves the world
    [fit] leaves. *)
Theorem fit_transform_is_fit_then_tcm g y w :
  match fit (fit_with g y) w with
  | (Ok _, w') =>
      ∃ tcm, tcm_ (self w') = Some tcm ∧
             fit_transform g y w = (Ok tcm, w')
  | (Err e, w') => fit_transform g y w = (Err e, w')
  end.
Proof.
  change (fit_transform g y) with (fit (fit_with g y) ≫= λ _, getattr tcm_).
  unfold mbind, Py_bind.
  destruct (fit (fit_with g y) w) as [[[]|e] w'] eqn:Hfit; [|done].
  apply fit_Ok in Hfit as (_ & d & ids & data_ids & g' & amt & lG & gd & Hd).
  destruct Hd as (_ & _ & _ & _ & _ & _ & Hs).
  exists amt.2. unfold getattr. by rewrite Hs.
Qed.

(** X3.  What [fit] computes depends on [G], [y] and the extra keywords
    alone: two calls that return, on any two instances in any two
    stores, with the same three arguments, store the same [node_ids_],
    [data_ids_], [adj_], [map_], [tcm_] and [mixtures_], whatever [X],
    [node_data], [edge_data] and [G_data] are and whatever was fitted
    before. *)
Theorem fit_results_depend_on_arguments_only a b w v w' v' :
  a_G a = a_G b → a_y a = a_y b → a_kwargs a = a_kwargs b →
  fit a w = (Ok (), w') → fit b v = (Ok (), v') →
  node_ids_ (self w') = node_ids_ (self v') ∧
  data_ids_ (self w') = data_ids_ (self v') ∧
  adj_ (self w') = adj_ (self v') ∧ map_ (self w') = map_ (self v') ∧
  tcm_ (self w') = tcm_ (self v') ∧
  mixtures_ (self w') = mixtures_ (self v').
Proof.
  intros HG Hy Hkw
    (_ & d & ids & data_ids & g & amt & lG & gd & Ha)%fit_Ok
    (_ & d' & ids' & data_ids' & g' & amt' & lG' & gd' & Hb)%fit_Ok.
  destruct Ha as (Hd & Hids & Hdata & Hg & Hamt & _ & ->).
  destruct Hb as (Hd' & Hids' & Hdata' & Hg' & Hamt' & _ & ->).
  rewrite <-HG, <-Hy, <-Hkw in *.
  eapply (canonical_dict_store _ (store v)) in Hd; [|done].
  rewrite Hd in Hd'. injection Hd' as <-.
  rewrite Hids in Hids'. injection Hids' as <-.
  rewrite Hdata in Hdata'. injection Hdata' as <-.
  rewrite Hg in Hg'. injection Hg' as <-.
  rewrite Hamt in Hamt'. injection Hamt' as <-.
  done.
Qed.

(** X4.  The [node_ids_] that [fit] stores are the node keys of the
    input graph as items of a numpy string array, each once, in the
    order of [np.unique]: a key is stored without the NUL characters it
    ends in, and two keys that differ in those only are stored once.
    When no key ends in a NUL character the stored ids are the keys
    themselves.  Without a graph, or without nodes, there are none. *)
Theorem fit_node_ids a w w' :
  fit a w = (Ok (), w') →
  ∃ nids, node_ids_ (self w') = Some nids ∧
    Sorted str_le nids ∧ NoDup nids ∧
    (∀ k, k ∈ nids ↔ ∃ k', k' ∈ input_node_keys (a_G a) ∧ k = strip_nul k') ∧
    (Forall (λ k, strip_nul k = k) (input_node_keys (a_G a)) →
     ∀ k, k ∈ nids ↔ k ∈ input_node_keys (a_G a)).
Proof.
  intros (_ & d & ids & data_ids & g & amt & lG & gd & Ha)%fit_Ok.
  destruct Ha as (Hd & Hids & _ & _ & _ & _ & ->).
  exists ids.1. split; [done|].
  erewrite graph_ids_keys by done.
  destruct (np_unique_str_spec (input_node_keys (a_G a))) as (? & ? & Hin).
  split_and!; [done..|].
  intros Hkeys k. rewrite Hin. rewrite Forall_forall in Hkeys. split.
  - intros (k' & Hk' & ->). by rewrite Hkeys.
  - intros Hk. exists k. by rewrite Hkeys.
Qed.

(** X5.  Given a networkx graph object, [fit] never reaches the
    processing stage, whatever [tools] is: the ["nodes"] entry of
    [nx.node_link_data] is a list, on which lines 95-96 raise
    ([TypeError] from [np.unique] over two or more node dicts, else
    [AttributeError] from [.items()]).  The inputs are saved and the
    copy of the graph is made; nothing else changes. *)
Theorem fit_graph_object_never_returns a w l g :
  a_G a = GGraph l → store w !! l = Some g →
  ∃ e, (e = TypeError ∨ e = AttributeError) ∧
    fit a w
      = (Err e,
         {| store := <[fresh (dom (store w)) := g]> (store w);
            self := save_inputs (a_G a) (a_X a) (a_y a) (self w) |}).
Proof.
  intros HG Hl. unfold fit, mbind, Py_bind, modify_self. rewrite HG. simpl.
  unfold mbind, Py_bind, deref, alloc. simpl. rewrite Hl. simpl.
  rewrite lookup_insert_eq. simpl.
  unfold lift, graph_ids. simpl.
  case_decide; eexists; (split; [|done]); auto.
Qed.
End fit_more.

Global Instance NInt_inj : Inj (=) (=) NInt.
Proof. by intros x y [= ->]. Qed.

Lemma lookup_np_arange n t :
  (t < n)%nat → np_arange n !! t = Some (Z.of_nat t).
Proof.
  intros Ht. unfold np_arange. rewrite lookup_seqZ_lt by lia.
  by rewrite Z.add_0_l.
Qed.

Lemma length_np_arange n : length (np_arange n) = n.
Proof. unfold np_arange. rewrite length_seqZ. lia. Qed.

Lemma dict_get_arange n ys t :
  dict_get (NInt (Z.of_nat t)) (zip (NInt <$> np_arange n) ys)
    = take n ys !! t.
Proof.
  assert (NoDup (NInt <$> np_arange n)) as Hnd.
  { apply (NoDup_fmap_2 _), NoDup_seqZ. }
  destruct (decide (t < n)%nat) as [Hlt|Hge].
  - rewrite lookup_take_lt by lia. apply dict_get_zip; [done|].
    by rewrite list_lookup_fmap, lookup_np_arange.
  - rewrite lookup_take_ge by lia. apply dict_get_None.
    intros ([k v] & Hk & Hin)%list_elem_of_fmap. simpl in Hk. subst k.
    apply elem_of_zip_l in Hin.
    apply list_elem_of_fmap in Hin as (z & [= <-] & Hz).
    unfold np_arange in Hz. apply elem_of_seqZ in Hz. lia.
Qed.

Lemma label_ids_arange y ids0 ids :
  y ≠ LVal PyNone → label_ids y ids0 = Ok ids → ∃ n, ids = np_arange n.
Proof.
  destruct y as [df|v]; intros Hy Hids.
  - eexists. by eapply label_ids_frame.
  - destruct v; try done; simpl in Hids; injection Hids as <-; eauto.
Qed.

Lemma foldl_set_edge_attr name items es :
  foldl (set_edge_attr name) es items =
    (λ e : node * node * gmap string pyval,
       (e.1, match edge_get e.1.1 e.1.2 items with
             | Some v => <[name := v]> e.2
             | None => e.2
             end)) <$> es.
Proof.
  revert es. induction items as [|item items IH]; intros es; simpl.
  { rewrite <-(list_fmap_id es) at 1. apply list_fmap_ext. by intros i [[]]. }
  rewrite IH. unfold set_edge_attr. rewrite <-list_fmap_compose.
  apply list_fmap_ext. intros i [[u v] a] _. simpl.
  destruct (same_edge u v item.1.1 item.1.2) eqn:He; simpl;
    destruct (edge_get u v items); simpl; try done.
  by rewrite insert_insert_eq.
Qed.

Lemma set_edge_attributes_edges g values name g' :
  set_edge_attributes g values name = Ok g' →
  edges g' =
    (λ e : node * node * gmap string pyval,
       (e.1, match edge_get e.1.1 e.1.2 values with
             | Some v => <[name := v]> e.2
             | None => e.2
             end)) <$> edges g.
Proof.
  unfold set_edge_attributes. destruct (multigraph g).
  - destruct values; [|done]. intros [= <-]. simpl.
    rewrite <-(list_fmap_id (edges g)) at 1. apply list_fmap_ext.
    by intros i [[]].
  - intros [= <-]. simpl. apply foldl_set_edge_attr.
Qed.

Lemma set_all_node_attributes_nodes node_data g :
  Forall (λ kv : string * list (node * pyval), NoDup kv.2.*1) node_data →
  nodes (set_all_node_attributes g node_data) =
    (λ na : node * gmap string pyval,
       (na.1, updated_attrs (λ values, dict_get na.1 values) node_data na.2))
    <$> nodes g.
Proof.
  unfold set_all_node_attributes, updated_attrs. intros Hnd. revert g.
  induction Hnd as [|[name values] node_data Hv _ IH]; intros g; simpl.
  { rewrite <-(list_fmap_id (nodes g)) at 1. apply list_fmap_ext.
    by intros i []. }
  rewrite IH. simpl. rewrite foldl_set_node_attr by done.
  rewrite <-list_fmap_compose. apply list_fmap_ext. by intros i [n a] _.
Qed.

Lemma set_all_edge_attributes_edges edge_data g g' :
  set_all_edge_attributes g edge_data = Ok g' →
  edges g' =
    (λ e : node * node * gmap string pyval,
       (e.1, updated_attrs (λ values, edge_get e.1.1 e.1.2 values)
               edge_data e.2))
    <$> edges g.
Proof.
  unfold updated_attrs. revert g.
  induction edge_data as [|[name values] edge_data IH]; intros g; simpl.
  { intros [= <-]. rewrite <-(list_fmap_id (edges g)) at 1.
    apply list_fmap_ext. by intros i [[]]. }
  unfold mbind, result_bind.
  destruct (set_edge_attributes g values name) as [g1|e] eqn:Hg1; [|done].
  intros Hg'. rewrite (IH _ Hg'), (set_edge_attributes_edges _ _ _ _ Hg1).
  rewrite <-list_fmap_compose. apply list_fmap_ext. by intros i [[u v] a] _.
Qed.

Section fit_graphs.
Context `{!Tools}.

(** X6.  The graph that [fit] stores is the processed graph with the
    attributes of [node_data] and [edge_data] set on it, after the
    matrices were extracted: [adj_], [map_] and [tcm_] are those of the
    processed graph as [tools] returned it.  The annotation changes no
    node key, no edge and no graph attribute.  Every node has, under the
    name of each attribute of [node_data], the value the dict of that
    attribute has for the node, and what it had before when the dict has
    none; every edge has, under the name of each attribute of
    [edge_data], the value the dict of that attribute has for the edge,
    named in either direction (the last such item when both are there),
    and what it had before when the dict has none.  Attributes that
    [node_data], for a node, and [edge_data], for an edge, do not name
    stay as they were.  The dicts are given by their items, each key
    once. *)
Theorem fit_stores_annotated_graph a w w' :
  fit a w = (Ok (), w') →
  ∃ d data_ids g amt lG gfin,
    canonical_dict (store w) (a_G a) = Some d ∧
    process_graph d (a_y a) (a_kwargs a) = Ok g ∧
    extract_matrices g (Some data_ids) = Ok amt ∧
    (adj_ (self w') = Some amt.1.1 ∧ map_ (self w') = Some amt.1.2 ∧
     tcm_ (self w') = Some amt.2) ∧
    (G_ (self w') = Some lG ∧ G (self w') = Some lG ∧
     store w' !! lG = Some gfin) ∧
    (same_shape g gfin ∧ graph gfin = graph g) ∧
    (NoDup (default [] (a_node_data a)).*1 →
     Forall (λ kv : string * list (node * pyval), NoDup kv.2.*1)
       (default [] (a_node_data a)) →
     ∀ i n a0, nodes g !! i = Some (n, a0) →
       ∃ a', nodes gfin !! i = Some (n, a') ∧
         (∀ name values,
            (name, values) ∈ default [] (a_node_data a) →
            a' !! name = match dict_get n values with
                         | Some x => Some x
                         | None => a0 !! name
                         end) ∧
         (∀ name, name ∉ (default [] (a_node_data a)).*1 →
            a' !! name = a0 !! name)) ∧
    (NoDup (default [] (a_edge_data a)).*1 →
     ∀ i u v a0, edges g !! i = Some (u, v, a0) →
       ∃ a', edges gfin !! i = Some (u, v, a') ∧
         (∀ name values,
            (name, values) ∈ default [] (a_edge_data a) →
            a' !! name = match edge_get u v values with
                         | Some x => Some x
                         | None => a0 !! name
                         end) ∧
         (∀ name, name ∉ (default [] (a_edge_data a)).*1 →
            a' !! name = a0 !! name)).
Proof.
  intros (d & ids & data_ids & g & amt & gfin & Hfit)%fit_returns_intro.
  destruct Hfit as (Hd & _ & _ & Hg & Hamt & Hfin & Hw').
  exists d, data_ids, g, amt, (fresh (dom (store w))), gfin.
  assert (self w' ∈ ((λ gd, store_fit (fresh (dom (store w))) gd ids.1
            data_ids amt.1.1 amt.1.2 amt.2 (mixtures_of amt.2)
            (save_inputs (a_G a) (a_X a) (a_y a) (self w))) <$>
            [GDGraph (fresh (dom (<[fresh (dom (store w)) := g]> (store w))));
             a_G_data a]) ∧
          store w' !! fresh (dom (store w)) = Some gfin) as [Hs Hl].
  { destruct (a_G_data a) as [[]|lgd]; simpl in Hw'.
    - destruct Hw' as (gm & ys & _ & _ & ->). simpl.
      split; [set_solver|apply lookup_insert_eq].
    - subst w'. simpl. split; [set_solver|apply lookup_insert_eq].
    - subst w'. simpl. split; [set_solver|apply lookup_insert_eq]. }
  assert (adj_ (self w') = Some amt.1.1 ∧ map_ (self w') = Some amt.1.2 ∧
          tcm_ (self w') = Some amt.2 ∧
          G_ (self w') = Some (fresh (dom (store w))) ∧
          G (self w') = Some (fresh (dom (store w)))) as (?&?&?&?&?).
  { apply list_elem_of_fmap in Hs as (gd & -> & _). done. }
  pose proof (set_all_node_attributes_shape g (default [] (a_node_data a)))
    as (Hs1 & Hg1 & He1).
  pose proof (set_all_edge_attributes_shape _ _ _ Hfin) as (Hs2 & Hg2 & Hn2).
  split_and!; try done.
  - by eapply same_shape_trans.
  - congruence.
  - intros Hnames Hvalues i n a0 Hi.
    rewrite Hn2, set_all_node_attributes_nodes by done.
    rewrite list_lookup_fmap, Hi. simpl. eexists. split; [done|].
    destruct (updated_attrs_lookup (λ values, dict_get n values)
                (default [] (a_node_data a)) a0) as [Hin Hnotin].
    split; [|done]. intros name values Hnv. by apply Hin.
  - intros Hnames i u v a0 Hi.
    rewrite (set_all_edge_attributes_edges _ _ _ Hfin), He1.
    rewrite list_lookup_fmap, Hi. simpl. eexists. split; [done|].
    destruct (updated_attrs_lookup (λ values, edge_get u v values)
                (default [] (a_edge_data a)) a0) as [Hin Hnotin].
    split; [|done]. intros name values Hnv. by apply Hin.
Qed.

(** X7.  [G_data]: any value but [True] is stored in [G_data_] as it
    is.  With [G_data=True] a call that returns had a [y]; [G_data_] is
    then a new [MultiGraph] whose nodes are the row numbers of [tcm_],
    not relabelled by the time indices (line 110 drops the relabelled
    copy), and node [t] has as its "group" the [t]-th thing that
    iterating [y] yields, as far as there are time indices; for a data
    frame that is the name of column [t]. *)
Theorem fit_G_data a w w' :
  fit a w = (Ok (), w') →
  (a_G_data a ≠ GDBool true → G_data_ (self w') = Some (a_G_data a)) ∧
  (a_G_data a = GDBool true →
     a_y a ≠ LVal PyNone ∧
     ∃ l gd tcm ys data_ids,
       G_data_ (self w') = Some (GDGraph l) ∧
       store w !! l = None ∧ store w' !! l = Some gd ∧
       Some l ≠ G_ (self w') ∧
       tcm_ (self w') = Some tcm ∧ data_ids_ (self w') = Some data_ids ∧
       label_iter (a_y a) = Ok ys ∧
       multigraph gd = true ∧ length (nodes gd) = length tcm ∧
       ∀ t, (t < length tcm)%nat →
         nodes gd !! t
           = Some (NInt (Z.of_nat t),
                   match take (length data_ids) ys !! t with
                   | Some v => {[ "group" := v ]}
                   | None => ∅
                   end)).
Proof.
  intros (d & ids & data_ids & g & amt & gfin & Hfit)%fit_returns_intro.
  destruct Hfit as (_ & _ & Hdata & _ & _ & _ & Hw').
  split.
  - intros Hgd. destruct (a_G_data a) as [[]|lgd]; simpl in Hw';
      [done|by subst w'..].
  - intros Hgd. rewrite Hgd in Hw'. simpl in Hw'.
    destruct Hw' as (gm & ys & Hgm & Hys & ->).
    assert (a_y a ≠ LVal PyNone) as Hy.
    { intros Hy. by rewrite Hy in Hys. }
    split; [done|].
    set (lG := fresh (dom (store w))).
    set (l := fresh (dom (<[lG := g]> (store w)))).
    assert (<[lG := g]> (store w) !! l = None) as Hl.
    { apply not_elem_of_dom, is_fresh. }
    apply lookup_insert_None in Hl as [Hl Hne].
    exists l, (set_node_attributes gm (zip (NInt <$> data_ids) ys) "group"),
      amt.2, ys, data_ids. simpl.
    unfold MultiGraph in Hgm. case_match; [|done]. injection Hgm as <-.
    split_and!; try done.
    + rewrite lookup_insert_ne by done. apply lookup_insert_eq.
    + congruence.
    + simpl. rewrite <-(length_fmap fst), foldl_set_node_attr_keys.
      by rewrite !length_fmap, length_np_arange.
    + intros t Ht.
      destruct (label_ids_arange _ _ _ Hy Hdata) as [n ->]. simpl.
      rewrite foldl_set_node_attr.
      2:{ apply NoDup_fst_zip, (NoDup_fmap_2 _), NoDup_seqZ. }
      rewrite !list_lookup_fmap, lookup_np_arange by done. simpl.
      rewrite dict_get_arange, length_np_arange.
      destruct (take n ys !! t); [|done].
      by rewrite insert_empty.
Qed.

(** X8.  [fit] catches nothing: when the graph is given as a dict or
    not at all and the indices are found, an exception of
    [process_graph] leaves [fit] as it is, with only the inputs saved,
    and an exception of [extract_matrices] likewise, the processed graph
    being by then a new object that nothing refers to. *)
Theorem fit_passes_exceptions_on a w d ids data_ids :
  canonical_dict (store w) (a_G a) = Some d →
  graph_ids d = Ok ids → label_ids (a_y a) ids.2 = Ok data_ids →
  let s := save_inputs (a_G a) (a_X a) (a_y a) (self w) in
  (∀ e, process_graph d (a_y a) (a_kwargs a) = Err e →
        fit a w = (Err e, {| store := store w; self := s |})) ∧
  (∀ g e, process_graph d (a_y a) (a_kwargs a) = Ok g →
          extract_matrices g (Some data_ids) = Err e →
          fit a w = (Err e, {| store := <[fresh (dom (store w)) := g]> (store w);
                               self := s |})).
Proof.
  intros Hd Hids Hdata s.
  assert (canonical (a_G a) {| store := store w; self := s |}
            = (Ok d, {| store := store w; self := s |})) as Hc.
  { destruct (a_G a) as [|l|d0].
    - by injection Hd as <-.
    - apply canonical_dict_graph_ids in Hd as [Hd|Hd]; congruence.
    - by injection Hd as <-. }
  split.
  - intros e Hg. unfold fit, mbind, Py_bind, modify_self. fold s.
    rewrite Hc. unfold lift. by rewrite Hids, Hdata, Hg.
  - intros g e Hg Hamt. unfold fit, mbind, Py_bind, modify_self. fold s.
    rewrite Hc. unfold lift, alloc. rewrite Hids, Hdata, Hg. simpl.
    by rewrite Hamt.
Qed.
End fit_graphs.

(** ** Annotation calls *)

Lemma for_each_app {T} (body : T → Py unit) l1 l2 w :
  for_each body (l1 ++ l2) w =
    match for_each body l1 w with
    | (Ok _, w1) => for_each body l2 w1
    | (Err e, w1) => (Err e, w1)
    end.
Proof.
  revert w. induction l1 as [|x l1 IH]; intros w; simpl; [done|].
  unfold mbind, Py_bind. destruct (body x w) as [[[]|e] w1]; [apply IH|done].
Qed.

Lemma annotate_nodes_one name c vs w lG g :
  G_ (self w) = Some lG → store w !! lG = Some g →
  node_values c w = (Ok vs, w) →
  annotate_nodes [(name, c)] w
    = (Ok (), {| store := <[lG := set_node_attributes g
                                     (zip (nodes g).*1 vs) name]> (store w);
                 self := self w |}).
Proof.
  intros HG Hl Hvs. unfold annotate_nodes. simpl.
  unfold mbind, Py_bind. simpl. rewrite Hvs.
  unfold getattr, deref, mutate. rewrite HG, Hl. simpl. rewrite Hl.
  reflexivity.
Qed.

(** X9.  A value that is no array, dict or list is given to every
    node: after [annotate_nodes(name=v)] each node of [G_] has [v] under
    [name], its other attributes unchanged. *)
Theorem annotate_nodes_plain_value name v w lG g :
  G_ (self w) = Some lG → store w !! lG = Some g → NoDup (nodes g).*1 →
  (∀ l, v ≠ PyList l) → (∀ d, v ≠ PyDict d) →
  ∃ g',
    annotate_nodes [(name, ValObj v)] w
      = (Ok (), {| store := <[lG := g']> (store w); self := self w |}) ∧
    nodes g' = (λ na : node * gmap string pyval,
                  (na.1, <[name := v]> na.2)) <$> nodes g ∧
    edges g' = edges g ∧ graph g' = graph g.
Proof.
  intros HG Hl Hnd Hlist Hdict.
  exists (set_node_attributes g
            (zip (nodes g).*1 (replicate (length (nodes g)) v)) name).
  split.
  - apply annotate_nodes_one; [done..|].
    destruct v; [..|by destruct (Hlist l)|by destruct (Hdict d)]; simpl;
      unfold mbind, Py_bind, getattr, deref; by rewrite HG, Hl.
  - split; [|done]. apply list_eq. intros i.
    rewrite list_lookup_fmap.
    destruct (nodes g !! i) as [[n a]|] eqn:Hi.
    + rewrite (nodes_after_zip _ _ _ _ n a) by done.
      rewrite lookup_replicate_2; [done|]. by eapply lookup_lt_Some.
    + apply lookup_ge_None. apply lookup_ge_None in Hi.
      simpl. rewrite <-(length_fmap fst), foldl_set_node_attr_keys.
      by rewrite length_fmap.
Qed.

(** X10.  A container with at least as many items as there are nodes
    annotates every node, by position: node [i] gets item [i], and the
    items beyond the last node are dropped without an error.  The items
    of a dict are its keys. *)
Theorem annotate_nodes_long_container name c vs w lG g :
  G_ (self w) = Some lG → store w !! lG = Some g → NoDup (nodes g).*1 →
  container_items c = Some vs → (length (nodes g) ≤ length vs)%nat →
  ∃ g',
    annotate_nodes [(name, c)] w
      = (Ok (), {| store := <[lG := g']> (store w); self := self w |}) ∧
    length (nodes g') = length (nodes g) ∧
    ∀ i n a, nodes g !! i = Some (n, a) →
      ∃ v, vs !! i = Some v ∧ nodes g' !! i = Some (n, <[name := v]> a).
Proof.
  intros HG Hl Hnd Hc Hlen.
  eexists. split; [|split].
  - apply annotate_nodes_one; [done..|]. by apply node_values_container.
  - simpl. rewrite <-(length_fmap fst), foldl_set_node_attr_keys.
    by rewrite length_fmap.
  - intros i n a Hi.
    destruct (vs !! i) as [v|] eqn:Hv.
    + exists v. split; [done|].
      by rewrite (nodes_after_zip _ _ _ _ n a), Hv by done.
    + apply lookup_ge_None in Hv. apply lookup_lt_Some in Hi. lia.
Qed.

(** X11.  The keywords of an annotation call are worked off one after
    the other: a call with the keywords [k1] followed by [k2] does what
    the call with [k1] and then the call with [k2] do, and stops where
    the first stops.  So the call is not undone when a later keyword
    fails: after the keywords [k1], which return, a zero-dimensional
    array raises [TypeError] and the attributes of [k1] stay set. *)
Theorem annotate_nodes_keyword_by_keyword k1 k2 w :
  annotate_nodes (k1 ++ k2) w =
    match annotate_nodes k1 w with
    | (Ok _, w1) => annotate_nodes k2 w1
    | (Err e, w1) => (Err e, w1)
    end ∧
  annotate_members (k1 ++ k2) w =
    match annotate_members k1 w with
    | (Ok _, w1) => annotate_members k2 w1
    | (Err e, w1) => (Err e, w1)
    end ∧
  ∀ name v w1,
    annotate_nodes k1 w = (Ok (), w1) →
    annotate_nodes (k1 ++ (name, ValArray0 v) :: k2) w = (Err TypeError, w1).
Proof.
  split_and!; [apply for_each_app..|].
  intros name v w1 Hk1. unfold annotate_nodes in *.
  by rewrite for_each_app, Hk1.
Qed.

(** X12.  [annotate_members] needs a graph in [G_data_]: while it holds
    the flag, as after any [fit] without [G_data=True], a call with at
    least one keyword raises [TypeError] and changes nothing; a call with
    no keyword returns. *)
Theorem annotate_members_needs_graph `{!Tools} :
  (∀ kv kwargs w b,
     G_data_ (self w) = Some (GDBool b) →
     annotate_members (kv :: kwargs) w = (Err TypeError, w)) ∧
  (∀ a w w' kv kwargs,
     fit a w = (Ok (), w') → a_G_data a = GDBool false →
     annotate_members (kv :: kwargs) w' = (Err TypeError, w')) ∧
  (∀ w, annotate_members [] w = (Ok (), w)).
Proof.
  assert (∀ kv kwargs w b,
     G_data_ (self w) = Some (GDBool b) →
     annotate_members (kv :: kwargs) w = (Err TypeError, w)) as Hflag.
  { intros [name c] kwargs w b HG. unfold annotate_members. simpl.
    unfold mbind, Py_bind, member_values, getattr. simpl.
    destruct c as [l|v|v]; simpl; rewrite ?HG; try done.
    destruct v; simpl; by rewrite ?HG. }
  split_and!; [done| |done].
  intros a w w' kv kwargs Hfit Hgd. apply (Hflag _ _ _ false).
  apply fit_returns_intro in Hfit
    as (d & ids & data_ids & g & amt & gfin & _ & _ & _ & _ & _ & _ & Hw').
  rewrite Hgd in Hw'. simpl in Hw'. by subst w'.
Qed.

(** X13.  [annotate_graph] on an instance whose [G_] is a graph updates
    the graph's own attribute dict and nothing else: every keyword is
    then found under its name, the other graph attributes, the nodes and
    the edges are as before.  On an instance without [G_] it raises
    [AttributeError]. *)
Theorem annotate_graph_updates_graph_attributes kwargs w :
  (∀ lG g, G_ (self w) = Some lG → store w !! lG = Some g →
     ∃ g',
       annotate_graph kwargs w
         = (Ok (), {| store := <[lG := g']> (store w); self := self w |}) ∧
       nodes g' = nodes g ∧ edges g' = edges g ∧
       (NoDup kwargs.*1 → ∀ k v, (k, v) ∈ kwargs → graph g' !! k = Some v) ∧
       (∀ k, k ∉ kwargs.*1 → graph g' !! k = graph g !! k)) ∧
  (G_ (self w) = None → annotate_graph kwargs w = (Err AttributeError, w)).
Proof.
  split.
  - intros lG g HG Hl. exists (graph_update kwargs g). split_and!; try done.
    + unfold annotate_graph, mbind, Py_bind, getattr, mutate.
      by rewrite HG, Hl.
    + intros Hnd k v Hin. by apply dict_update_lookup_in.
    + intros k Hk. by apply dict_update_lookup_notin.
  - intros HG. unfold annotate_graph, mbind, Py_bind, getattr. by rewrite HG.
Qed.

(** ** [cache] and the constructor *)

(** X14.  What [cache] stores it gives back: after a call with
    keywords only, [cache(k, ...)] returns the value stored under
    [k] when that value is not [None], whatever keys follow [k] and
    whatever keywords are passed along; a key stored with [None] is
    passed over like a key that was never stored. *)
Theorem cache_gives_back_what_it_stored kwargs k v w :
  NoDup kwargs.*1 → (k, v) ∈ kwargs →
  let w' := after (cache [] kwargs) w in
  (arg_is_none v = false →
     ∀ args kwargs', cache (k :: args) kwargs' w' = (Ok (Value v), w')) ∧
  (arg_is_none v = true →
     ∀ k' args kwargs',
       cache (k :: k' :: args) kwargs' w' = cache (k' :: args) kwargs' w') ∧
  (arg_is_none v = true →
     ∀ kwargs', cache [k] kwargs' w' = (Ok (Value (ArgVal PyNone)), w')).
Proof.
  intros Hnd Hin w'.
  assert (cache_ (self w') !! k = Some v) as Hk.
  { by apply dict_update_lookup_in. }
  clearbody w'. split_and!.
  - intros Hv args kwargs'. unfold cache. simpl.
    unfold cache_get. rewrite Hk. simpl. by rewrite Hv.
  - intros Hv k' args kwargs'.
    unfold cache. simpl. unfold cache_get at 1. rewrite Hk. simpl.
    by rewrite Hv.
  - intros Hv kwargs'. unfold cache. simpl.
    unfold cache_get. rewrite Hk. simpl. by rewrite Hv.
Qed.

Lemma bind_param_G params a g :
  NoDup (param_item <$> params).*1 → P_G g ∈ params →
  a_G (foldl bind_param a params) = g.
Proof.
  revert a. induction params as [|p params IH]; intros a Hnd Hin.
  { by apply elem_of_nil in Hin. }
  simpl in *. apply NoDup_cons in Hnd as [Hp Hnd].
  apply elem_of_cons in Hin as [<-|Hin]; [|by apply IH].
  clear IH. simpl.
  assert (∀ b, a_G b = g → a_G (foldl bind_param b params) = g) as Hkeep.
  { clear Hnd. revert Hp. induction params as [|q params IH]; intros Hp b Hb;
      [done|].
    simpl in *. apply not_elem_of_cons in Hp as [Hq Hp].
    apply IH; [done|]. by destruct q. }
  by apply Hkeep.
Qed.

Lemma bind_param_no_G params a :
  (∀ g, P_G g ∉ params) → a_G (foldl bind_param a params) = a_G a.
Proof.
  revert a. induction params as [|p params IH]; intros a Hno; [done|].
  simpl. rewrite IH.
  - destruct p; try done. destruct (Hno g). by left.
  - intros g Hg. apply (Hno g). by right.
Qed.

(** X15.  The constructor keeps its keywords: when the constructor
    returns, [cache_] is the dict of the keywords, so that each is found
    under its name, and [fit] has run on them: [G_input_] is the [G]
    given, or [None] when none was, and the results are set.  Nothing
    has assigned [annotations_], [mixtures_img_], [node_link_data_] or
    [HTTP] yet. *)
Theorem constructor_keeps_keywords `{!Tools} params w w' :
  __init__ params w = (Ok (), w') →
  NoDup (param_item <$> params).*1 →
  cache_ (self w') = list_to_map (param_item <$> params) ∧
  (∀ p, p ∈ params →
     cache_ (self w') !! (param_item p).1 = Some (param_item p).2) ∧
  (∀ g, P_G g ∈ params → G_input_ (self w') = Some g) ∧
  ((∀ g, P_G g ∉ params) → G_input_ (self w') = Some GNone) ∧
  (is_Some (G_ (self w')) ∧ is_Some (tcm_ (self w')) ∧
   is_Some (mixtures_ (self w'))) ∧
  (annotations_ (self w') = None ∧ mixtures_img_ (self w') = None ∧
   node_link_data_ (self w') = None ∧ HTTP (self w') = None).
Proof.
  unfold __init__. intros Hfit Hnd.
  apply fit_Ok in Hfit as (_ & d & ids & data_ids & g & amt & lG & gd & Hd).
  destruct Hd as (_ & _ & _ & _ & _ & _ & ->). simpl.
  split_and!; try done.
  - intros p Hp. apply elem_of_list_to_map; [done|].
    apply list_elem_of_fmap. exists p. split; [by destruct (param_item p)|done].
  - intros g0 Hg0. f_equal. by apply bind_param_G.
  - intros Hno. f_equal. by rewrite bind_param_no_G.
Qed.

(** ** Mixtures of a symmetric matrix *)

Lemma elem_of_mixture tcm t mix t' :
  mixtures_of tcm !! t = Some mix →
  t' ∈ mix ↔ ∃ v, entry tcm t t' = Some v ∧ v ≠ 0.
Proof.
  unfold mixtures_of, entry, matrix in *. rewrite list_lookup_fmap.
  destruct (tcm !! t) as [row|]; [|done]. simpl. intros [= <-].
  apply elem_of_nonzero.
Qed.

(** X16.  For a symmetric matrix the mixtures are symmetric too: [t']
    is in the mixture of [t] exactly when [t] is in the mixture of
    [t']. *)
Theorem mixtures_of_symmetric tcm t t' mix mix' :
  symmetric tcm →
  mixtures_of tcm !! t = Some mix → mixtures_of tcm !! t' = Some mix' →
  t' ∈ mix ↔ t ∈ mix'.
Proof.
  intros Hsym Hmix Hmix'.
  rewrite (elem_of_mixture _ _ _ _ Hmix), (elem_of_mixture _ _ _ _ Hmix').
  by rewrite (Hsym t t').
Qed.

(** ** [visualize] *)

Lemma rendered_refl w : rendered w w.
Proof.
  split.
  - exists (node_link_data_ (self w)), (HTTP (self w)). by destruct (self w).
  - intros l. split; [|done]. by destruct (store w !! l); constructor.
Qed.

Lemma rendered_mutate w w' l g kwargs :
  rendered w w' → store w' !! l = Some g →
  Some l = G (self w) ∨ Some l = G_ (self w) →
  rendered w {| store := <[l := graph_update kwargs g]> (store w');
                self := self w' |}.
Proof.
  intros [Hs Hst] Hl Hor. split; [done|]. intros l'. simpl.
  destruct (decide (l = l')) as [<-|Hne].
  - rewrite lookup_insert_eq. split.
    + destruct (Hst l) as [Hrel _]. rewrite Hl in Hrel.
      inversion Hrel as [g0 ? (?&?&?)|]; subst. by constructor.
    + intros ??. by destruct Hor.
  - rewrite lookup_insert_ne by done. apply Hst.
Qed.

Lemma rendered_self w w' f :
  rendered w w' →
  (∀ d http, ∃ d' http',
     f (with_render d http (self w)) = with_render d' http' (self w)) →
  rendered w {| store := store w'; self := f (self w') |}.
Proof.
  intros [(d & http & Hs) Hst] Hf. split; [|done]. simpl.
  rewrite Hs. destruct (Hf d http) as (d' & http' & ->). eauto.
Qed.

Section visualize_frame.
Context `{!Tools, !Visuals}.

(** X17.  [visualize] touches neither the matrices nor the structure
    of any graph: whether it returns or raises, every attribute of the
    instance but [node_link_data_] and [HTTP] is as before, every graph
    has the nodes, node attributes and edges it had, and only the graphs
    that [G] and [G_] name can differ, in their graph attributes (the
    colour functions and the custom data stay on them). *)
Theorem visualize_keeps_fitted_state p j c d t kwargs w :
  let w' := after (visualize p j c d t kwargs) w in
  rendered w w' ∧
  (G_ (self w') = G_ (self w) ∧ G (self w') = G (self w) ∧
   G_data_ (self w') = G_data_ (self w) ∧
   adj_ (self w') = adj_ (self w) ∧ map_ (self w') = map_ (self w) ∧
   tcm_ (self w') = tcm_ (self w) ∧
   mixtures_ (self w') = mixtures_ (self w) ∧
   cache_ (self w') = cache_ (self w)).
Proof.
  intros w'.
  assert (rendered w w') as Hw'.
  { apply (wp_after _ (rendered w)). unfold visualize.
    assert (∀ l kw w1, rendered w w1 →
      Some l = G (self w) ∨ Some l = G_ (self w) →
      wp (mutate l (graph_update kw)) (λ _, rendered w) (λ _, rendered w) w1)
      as Hmut.
    { intros l kw w1 Hw1 Hor. apply wp_mutate.
      destruct (store w1 !! l) as [g|] eqn:Hl; [|done].
      by eapply rendered_mutate. }
    assert (∀ w1, rendered w w1 →
      G (self w1) = G (self w) ∧ G_ (self w1) = G_ (self w) ∧
      tcm_ (self w1) = tcm_ (self w)) as Hsame.
    { intros w1 [(d1 & h1 & ->) _]. done. }
    apply wp_bind.
    eapply (wp_mono _ (λ _, rendered w) _ (λ _, rendered w)); [|simpl|done].
    { pose proof (rendered_refl w) as Hw.
      destruct c; try apply Hw;
        (apply wp_bind, wp_getattr;
         destruct (G (self w)) as [lG0|] eqn:HG; [|done];
         apply Hmut; auto). }
    intros [] w1 Hw1. destruct (Hsame _ Hw1) as (HG1 & HG_1 & _).
    apply wp_bind.
    eapply (wp_mono _ (λ _, rendered w) _ (λ _, rendered w)); [|simpl|done].
    { destruct d as [| | | | |dd]; try done. unfold annotate_graph.
      apply wp_bind, wp_getattr.
      destruct (G_ (self w1)) as [l|] eqn:HGl; [|done].
      apply Hmut; [done|]. right. congruence. }
    intros [] w2 Hw2.
    apply wp_bind, wp_getattr. destruct (G (self w2)) as [l|]; [|done].
    apply wp_bind, wp_deref. destruct (store w2 !! l) as [g|]; [|done].
    apply wp_bind, wp_modify_self.
    assert (rendered w {| store := store w2;
        self := set_node_link_data_ (node_link_data g) (self w2) |}) as Hw3.
    { apply rendered_self; [done|]. intros d1 h1. by eexists _, _. }
    apply wp_bind.
    eapply (wp_mono _ (λ _, rendered w) _ (λ _, rendered w)); [|simpl|done].
    { destruct t; [|done]. apply wp_bind, wp_getattr. simpl.
      destruct (tcm_ (self w2)); [|done].
      apply wp_bind, wp_lift. by destruct (plot_temporal_matrix _ _). }
    intros [] w4 Hw4.
    apply wp_bind, wp_getattr. destruct (node_link_data_ (self w4)); [|done].
    apply wp_bind, wp_lift. destruct (visualize_force _ _ _); [|done].
    apply wp_modify_self. apply rendered_self; [done|].
    intros d1 h1. by eexists _, _. }
  split; [done|]. destruct Hw' as [(d1 & h1 & ->) _]. done.
Qed.
End visualize_frame.

Section fit_label.
Context `{!Tools}.

(** X18.  A [y] that is neither [None], a data frame nor something
    with a length stops [fit] at [len(y)]: when the graph is given as a
    dict or not at all, the call raises [TypeError] with the inputs
    saved and nothing else done, whatever [tools] is. *)
Theorem fit_unsized_y_raises a w d ids v :
  canonical_dict (store w) (a_G a) = Some d → graph_ids d = Ok ids →
  a_y a = LVal v → v ≠ PyNone → ¬ is_Ok (py_len v) →
  fit a w
    = (Err TypeError,
       {| store := store w;
          self := save_inputs (a_G a) (a_X a) (a_y a) (self w) |}).
Proof.
  intros Hd Hids Hy Hv Hlen.
  set (s := save_inputs (a_G a) (a_X a) (a_y a) (self w)).
  assert (canonical (a_G a) {| store := store w; self := s |}
            = (Ok d, {| store := store w; self := s |})) as Hc.
  { destruct (a_G a) as [|l|d0].
    - by injection Hd as <-.
    - apply canonical_dict_graph_ids in Hd as [Hd|Hd]; congruence.
    - by injection Hd as <-. }
  unfold fit, mbind, Py_bind, modify_self. fold s.
  rewrite Hc. unfold lift. rewrite Hids, Hy.
  destruct v; try done; by destruct Hlen.
Qed.
End fit_label.

(** ** The further properties at sample inputs *)

Lemma fit_sets_every_result_witness :
  let a := fit_with (GDict two_nodes) (LVal PyNone) in
  let w' := after (@fit spec_tools a) new_world in
  @fit spec_tools a new_world = (Ok (), w') ∧
  G (self w') = G_ (self w') ∧ TCM (self w') = tcm_ (self w').
Proof.
  intros a w'.
  assert (@fit spec_tools a new_world = (Ok (), w')) as Hfit by reflexivity.
  split; [exact Hfit|].
  pose proof (@fit_sets_every_result spec_tools a new_world w' Hfit)
    as (_ & _ & _ & (HG & _ & _ & HT) & _).
  split; [exact HG|exact HT].
Defined.

Lemma fit_results_depend_on_arguments_only_witness :
  let a := fit_with (GDict two_nodes) (LVal PyNone) in
  let w' := after (@fit spec_tools a) new_world in
  let v' := after (@fit spec_tools coloured_args) fitted_world in
  @fit spec_tools a new_world = (Ok (), w') ∧
  @fit spec_tools coloured_args fitted_world = (Ok (), v') ∧
  tcm_ (self w') = tcm_ (self v').
Proof.
  intros a w' v'.
  assert (@fit spec_tools a new_world = (Ok (), w')) as Ha by reflexivity.
  assert (@fit spec_tools coloured_args fitted_world = (Ok (), v')) as Hb
    by reflexivity.
  split; [exact Ha|]. split; [exact Hb|].
  apply (@fit_results_depend_on_arguments_only spec_tools a coloured_args
           new_world fitted_world w' v' eq_refl eq_refl eq_refl Ha Hb).
Defined.

Lemma fit_node_ids_witness :
  let a := fit_with (GDict two_nodes) (LVal PyNone) in
  let w' := after (@fit spec_tools a) new_world in
  @fit spec_tools a new_world = (Ok (), w') ∧
  ∃ nids, node_ids_ (self w') = Some nids ∧ Sorted str_le nids ∧ NoDup nids ∧
    ∀ k, k ∈ nids ↔ k ∈ ["a"; "b"].
Proof.
  intros a w'.
  assert (@fit spec_tools a new_world = (Ok (), w')) as Hfit by reflexivity.
  split; [exact Hfit|].
  destruct (@fit_node_ids spec_tools a new_world w' Hfit)
    as (nids & Hnids & Hsorted & Hnodup & _ & Hkeys).
  exists nids. split; [exact Hnids|]. split; [exact Hsorted|].
  split; [exact Hnodup|].
  apply Hkeys. repeat constructor.
Defined.

Lemma fit_graph_object_never_returns_witness :
  store caller_world !! 1%positive = Some two_nodes_graph ∧
  ∃ e, (e = TypeError ∨ e = AttributeError) ∧
    @fit spec_tools (fit_with (GGraph 1) (LVal PyNone)) caller_world
      = (Err e,
         {| store := <[fresh (dom (store caller_world)) := two_nodes_graph]>
                       (store caller_world);
            self := save_inputs (GGraph 1) PyNone (LVal PyNone)
                      (self caller_world) |}).
Proof.
  assert (store caller_world !! 1%positive = Some two_nodes_graph) as Hl
    by reflexivity.
  split; [exact Hl|].
  exact (@fit_graph_object_never_returns spec_tools
           (fit_with (GGraph 1) (LVal PyNone)) caller_world 1%positive
           two_nodes_graph eq_refl Hl).
Defined.

Lemma fit_stores_annotated_graph_witness :
  let w' := after (@fit spec_tools weighted_args) new_world in
  @fit spec_tools weighted_args new_world = (Ok (), w') ∧
  ∃ lG gfin,
    G_ (self w') = Some lG ∧ store w' !! lG = Some gfin ∧
    (∃ a', nodes gfin !! 0%nat = Some (NStr "a", a') ∧
           a' !! "color" = Some (PyStr "blue") ∧
           a' !! "members" = Some (PyList [PyInt 0; PyInt 1; PyInt 2])) ∧
    (∃ b', nodes gfin !! 1%nat = Some (NStr "b", b') ∧
           b' !! "color" = None) ∧
    (∃ e', edges gfin !! 0%nat = Some (NStr "a", NStr "b", e') ∧
           e' !! "weight" = Some (PyInt 2)).
Proof.
  intros w'.
  assert (@fit spec_tools weighted_args new_world = (Ok (), w')) as Hfit
    by reflexivity.
  split; [exact Hfit|].
  destruct (@fit_stores_annotated_graph spec_tools weighted_args new_world w'
              Hfit)
    as (d & data_ids & g & amt & lG & gfin & Hd & Hg & _ & _ & HG & _
        & Hnodes & Hedges).
  exists lG, gfin. destruct HG as (HG & _ & Hl).
  split; [exact HG|]. split; [exact Hl|].
  injection Hd as <-. injection Hg as <-.
  assert (NoDup [NStr "a"]) as Hnd
    by (apply (bool_decide_unpack _); vm_compute; exact I).
  assert (NoDup ["color"]) as Hcolor
    by (apply (bool_decide_unpack _); vm_compute; exact I).
  assert (NoDup ["weight"]) as Hweight
    by (apply (bool_decide_unpack _); vm_compute; exact I).
  assert (Forall (λ kv : string * list (node * pyval), NoDup kv.2.*1)
            [("color", [(NStr "a", PyStr "blue")])]) as Hvalues
    by (apply Forall_cons; split; [exact Hnd|apply Forall_nil_2]).
  specialize (Hnodes Hcolor Hvalues).
  specialize (Hedges Hweight).
  split_and!.
  - destruct (Hnodes 0%nat (NStr "a")
                {[ "members" := PyList [PyInt 0; PyInt 1; PyInt 2] ]} eq_refl)
      as (a' & Ha' & Hin & Hnotin).
    exists a'. split; [exact Ha'|]. split.
    + exact (Hin "color" _ (list_elem_of_here _ _)).
    + rewrite (Hnotin "members"); [reflexivity|].
      intros [Hm|Hm]%elem_of_cons; [discriminate Hm|].
      by apply elem_of_nil in Hm.
  - destruct (Hnodes 1%nat (NStr "b")
                {[ "members" := PyList [PyInt 2; PyInt 3] ]} eq_refl)
      as (b' & Hb' & Hin & _).
    exists b'. split; [exact Hb'|].
    exact (Hin "color" _ (list_elem_of_here _ _)).
  - destruct (Hedges 0%nat (NStr "a") (NStr "b") ∅ eq_refl)
      as (e' & He' & Hin & _).
    exists e'. split; [exact He'|].
    exact (Hin "weight" _ (list_elem_of_here _ _)).
Defined.

Lemma fit_G_data_witness :
  let w' := after (@fit spec_tools labelled_args) new_world in
  @fit spec_tools labelled_args new_world = (Ok (), w') ∧
  ∃ l gd,
    G_data_ (self w') = Some (GDGraph l) ∧ store w' !! l = Some gd ∧
    nodes gd !! 1%nat = Some (NInt 1, {[ "group" := PyStr "task" ]}).
Proof.
  intros w'.
  assert (@fit spec_tools labelled_args new_world = (Ok (), w')) as Hfit
    by reflexivity.
  split; [exact Hfit|].
  destruct (proj2 (@fit_G_data spec_tools labelled_args new_world w' Hfit)
              eq_refl)
    as (_ & l & gd & tcm & ys & data_ids & HG & _ & Hl & _ & Htcm & Hids
        & Hys & _ & _ & Hnodes).
  exists l, gd. split; [exact HG|]. split; [exact Hl|].
  assert (tcm = two_nodes_tcm) as -> by (by injection Htcm as <-).
  assert (data_ids = [0; 1; 2; 3]) as -> by (by injection Hids as <-).
  assert (ys = [PyStr "rest"; PyStr "task"; PyStr "rest"; PyStr "task"]) as ->
    by (by injection Hys as <-).
  apply (Hnodes 1%nat). simpl. lia.
Defined.

Lemma fit_passes_exceptions_on_witness :
  (∃ g, @process_graph spec_tools (dict_merge skeleton two_nodes)
          (LVal PyNone) (a_kwargs broken_args) = Ok g ∧
        @extract_matrices spec_tools g (Some [0; 1; 2; 3])
          = Err SchemaMismatch) ∧
  (@fit spec_tools broken_args new_world).1 = Err SchemaMismatch.
Proof.
  split; [eexists; split; reflexivity|].
  erewrite (proj2 (@fit_passes_exceptions_on spec_tools broken_args new_world
                     (dict_merge skeleton two_nodes) (["a"; "b"], [0; 1; 2; 3])
                     [0; 1; 2; 3] eq_refl eq_refl eq_refl));
    reflexivity.
Defined.

Lemma annotate_nodes_plain_value_witness :
  G_ (self fitted_world) = Some 1%positive ∧
  store fitted_world !! 1%positive = Some two_nodes_graph ∧
  ∃ g',
    annotate_nodes [("color", ValObj (PyStr "blue"))] fitted_world
      = (Ok (), {| store := <[1%positive := g']> (store fitted_world);
                   self := self fitted_world |}) ∧
    nodes g' = (λ na : node * gmap string pyval,
                  (na.1, <["color" := PyStr "blue"]> na.2))
               <$> nodes two_nodes_graph.
Proof.
  assert (G_ (self fitted_world) = Some 1%positive) as HG by reflexivity.
  assert (store fitted_world !! 1%positive = Some two_nodes_graph) as Hl
    by reflexivity.
  split; [exact HG|]. split; [exact Hl|].
  assert (NoDup (nodes two_nodes_graph).*1) as Hnd.
  { apply (bool_decide_unpack _). vm_compute. exact I. }
  destruct (annotate_nodes_plain_value "color" (PyStr "blue") fitted_world
              1%positive two_nodes_graph HG Hl Hnd)
    as (g' & Hrun & Hnodes & _); [done..|].
  exists g'. split; [exact Hrun|exact Hnodes].
Defined.

Lemma annotate_nodes_long_container_witness :
  G_ (self fitted_world) = Some 1%positive ∧
  store fitted_world !! 1%positive = Some two_nodes_graph ∧
  ∃ g',
    annotate_nodes
      [("size", ValArray [PyInt 3; PyInt 2; PyInt 7])] fitted_world
      = (Ok (), {| store := <[1%positive := g']> (store fitted_world);
                   self := self fitted_world |}) ∧
    length (nodes g') = 2%nat ∧
    ∃ v, [PyInt 3; PyInt 2; PyInt 7] !! 1%nat = Some v ∧
         nodes g' !! 1%nat
           = Some (NStr "b",
                   <["size" := v]>
                     {[ "members" := PyList [PyInt 2; PyInt 3] ]}).
Proof.
  assert (G_ (self fitted_world) = Some 1%positive) as HG by reflexivity.
  assert (store fitted_world !! 1%positive = Some two_nodes_graph) as Hl
    by reflexivity.
  split; [exact HG|]. split; [exact Hl|].
  assert (NoDup (nodes two_nodes_graph).*1) as Hnd.
  { apply (bool_decide_unpack _). vm_compute. exact I. }
  destruct (annotate_nodes_long_container "size"
              (ValArray [PyInt 3; PyInt 2; PyInt 7])
              [PyInt 3; PyInt 2; PyInt 7] fitted_world
              1%positive two_nodes_graph HG Hl Hnd eq_refl)
    as (g' & Hrun & Hlen & Hnodes); [simpl; lia|].
  exists g'. split; [exact Hrun|]. split; [exact Hlen|].
  apply (Hnodes 1%nat (NStr "b")). reflexivity.
Defined.

Lemma annotate_nodes_keyword_by_keyword_witness :
  let k1 := [("color", ValObj (PyStr "blue"))] in
  let w1 := after (annotate_nodes k1) fitted_world in
  annotate_nodes k1 fitted_world = (Ok (), w1) ∧
  annotate_nodes (k1 ++ [("size", ValArray0 (PyInt 3))]) fitted_world
    = (Err TypeError, w1).
Proof.
  intros k1 w1.
  assert (annotate_nodes k1 fitted_world = (Ok (), w1)) as Hk1 by reflexivity.
  split; [exact Hk1|].
  exact (proj2 (proj2 (annotate_nodes_keyword_by_keyword k1 [] fitted_world))
           "size" (PyInt 3) w1 Hk1).
Defined.

Lemma annotate_members_needs_graph_witness :
  G_data_ (self fitted_world) = Some (GDBool false) ∧
  annotate_members [("image", ValObj (PyStr "scan"))] fitted_world
    = (Err TypeError, fitted_world).
Proof.
  assert (G_data_ (self fitted_world) = Some (GDBool false)) as HG
    by reflexivity.
  split; [exact HG|].
  exact (proj1 (@annotate_members_needs_graph spec_tools)
           ("image", ValObj (PyStr "scan")) [] fitted_world false HG).
Defined.

Lemma annotate_graph_updates_graph_attributes_witness :
  G_ (self fitted_world) = Some 1%positive ∧
  store fitted_world !! 1%positive = Some two_nodes_graph ∧
  ∃ g',
    annotate_graph [("title", PyStr "run 1")] fitted_world
      = (Ok (), {| store := <[1%positive := g']> (store fitted_world);
                   self := self fitted_world |}) ∧
    graph g' !! "title" = Some (PyStr "run 1").
Proof.
  assert (G_ (self fitted_world) = Some 1%positive) as HG by reflexivity.
  assert (store fitted_world !! 1%positive = Some two_nodes_graph) as Hl
    by reflexivity.
  split; [exact HG|]. split; [exact Hl|].
  destruct (proj1 (annotate_graph_updates_graph_attributes
                     [("title", PyStr "run 1")] fitted_world)
              1%positive two_nodes_graph HG Hl)
    as (g' & Hrun & _ & _ & Hin & _).
  exists g'. split; [exact Hrun|].
  apply Hin; [|by left]. apply (bool_decide_unpack _). vm_compute. exact I.
Defined.

Lemma cache_gives_back_what_it_stored_witness :
  let kwargs := [("a", ArgVal PyNone); ("b", ArgVal (PyInt 7))] in
  let w' := after (cache [] kwargs) new_world in
  ("b", ArgVal (PyInt 7)) ∈ kwargs ∧
  cache ["b"; "a"] [] w' = (Ok (Value (ArgVal (PyInt 7))), w').
Proof.
  intros kwargs w'.
  assert (("b", ArgVal (PyInt 7)) ∈ kwargs) as Hin by (right; left).
  split; [exact Hin|].
  assert (NoDup kwargs.*1) as Hnd.
  { apply (bool_decide_unpack _). vm_compute. exact I. }
  exact (proj1 (cache_gives_back_what_it_stored kwargs "b" (ArgVal (PyInt 7))
                  new_world Hnd Hin) eq_refl ["a"] []).
Defined.

Lemma constructor_keeps_keywords_witness :
  let params := [P_G (GDict two_nodes); P_kw "note" (PyStr "pilot")] in
  let w' := after (@__init__ spec_tools params) new_world in
  @__init__ spec_tools params new_world = (Ok (), w') ∧
  cache_ (self w') !! "note" = Some (ArgVal (PyStr "pilot")) ∧
  G_input_ (self w') = Some (GDict two_nodes).
Proof.
  intros params w'.
  assert (@__init__ spec_tools params new_world = (Ok (), w')) as Hinit
    by reflexivity.
  split; [exact Hinit|].
  assert (NoDup (param_item <$> params).*1) as Hnd.
  { apply (bool_decide_unpack _). vm_compute. exact I. }
  destruct (@constructor_keeps_keywords spec_tools params new_world w'
              Hinit Hnd) as (_ & Hcache & HG & _).
  split.
  - apply (Hcache (P_kw "note" (PyStr "pilot"))). right. left.
  - apply HG. left.
Defined.

Lemma two_nodes_tcm_symmetric : symmetric two_nodes_tcm.
Proof.
  intros i j.
  do 4 (destruct i as [|i]; [do 4 (destruct j as [|j]; [reflexivity|]);
                             reflexivity|]).
  do 4 (destruct j as [|j]; [reflexivity|]). reflexivity.
Qed.

Lemma mixtures_of_symmetric_witness :
  symmetric two_nodes_tcm ∧
  (3%nat ∈ [0; 1; 2; 3]%nat ↔ 2%nat ∈ [2; 3]%nat).
Proof.
  split; [exact two_nodes_tcm_symmetric|].
  exact (mixtures_of_symmetric two_nodes_tcm 2 3 [0; 1; 2; 3]%nat [2; 3]%nat
           two_nodes_tcm_symmetric eq_refl eq_refl).
Defined.

Lemma fit_unsized_y_raises_witness :
  ¬ is_Ok (py_len (PyInt 5)) ∧
  @fit spec_tools (fit_with GNone (LVal (PyInt 5))) new_world
    = (Err TypeError,
       {| store := store new_world;
          self := save_inputs GNone PyNone (LVal (PyInt 5)) (self new_world) |}).
Proof.
  assert (¬ is_Ok (py_len (PyInt 5))) as Hlen by (intros []).
  split; [exact Hlen|].
  eapply (@fit_unsized_y_raises spec_tools (fit_with GNone (LVal (PyInt 5)))
            new_world _ _ (PyInt 5));
    [reflexivity|reflexivity|reflexivity|discriminate|exact Hlen].
Defined.
